(** * Webhook dispatch of razorpay-typescript: [src/webhook.ts]

    A shallow embedding of the two classes of the webhook module,
    [RazorWebhookHandler] (the table of callbacks and its setters) and
    [RazorWebhook] (the constructor and [execute]), followed by the
    properties of the dispatch.

    The table of callbacks and the payload are JavaScript objects that the
    dispatcher, the setters and the callbacks of the host all reach by
    reference, so both live in an explicit heap that every operation takes
    and returns.  A callback is a reference to a function; what calling it
    does is given by the host ([HostFunctions]) as a function on the heap,
    which may change any object or table.  A call ends by returning or by
    throwing; a returned promise is fulfilled, rejected or still pending. *)

From Stdlib Require Import String List ZArith Lia.
From stdpp Require Import base option gmap strings list.

Local Open Scope string_scope.

(** ** JavaScript values, promises and completions *)

(** Heap addresses of objects. *)
Abbreviation loc := positive.

(** Values, as far as the module can tell them apart.  Objects live on the
    heap and are held by reference; an [Error] instance is kept as a value
    carrying its message. *)
Inductive JsValue :=
| JUndefined
| JNull
| JBool (b : bool)
| JNumber (n : Z)
| JString (s : string)
| JRef (l : loc)
| JError (message : string).

#[global] Instance JsValue_eq_dec : EqDecision JsValue.
Proof. solve_decision. Defined.

(** [ToBoolean]: what [!payload] negates. *)
Definition truthy (v : JsValue) : bool :=
  match v with
  | JUndefined | JNull => false
  | JBool b => b
  | JNumber n => negb (n =? 0)%Z
  | JString s => negb (String.eqb s "")
  | JRef _ | JError _ => true
  end.

(** A plain object: its own properties by name. *)
Abbreviation JsObject := (gmap string JsValue).

(** A promise in the state its producer left it in. *)
Inductive Promise :=
| Fulfilled (value : JsValue)
| Rejected (reason : JsValue)
| Pending (id : nat).

(** [Promise.resolve(v)] and [Promise.reject(r)]. *)
Definition Promise_resolve (v : JsValue) : Promise := Fulfilled v.
Definition Promise_reject (r : JsValue) : Promise := Rejected r.

(** How a call ends: it returns, or it throws synchronously. *)
Inductive Completion (A : Type) :=
| Normal (a : A)
| Throw (e : JsValue).
Arguments Normal {A} a.
Arguments Throw {A} e.

(** ** The callbacks *)

(** [WebHookFunction]: a reference to a function.  The module knows one
    function of its own, [_mockAction]; every other one is supplied by the
    host and is known by its identity only. *)
Inductive WebHookFunction :=
| _mockAction
| HostFn (id : nat).

#[global] Instance WebHookFunction_eq_dec : EqDecision WebHookFunction.
Proof. solve_decision. Defined.

(** [WebHookEvent]: the union of string literals, in the order of the
    declaration. *)
Definition WebHookEvent : list string :=
  [ "order.paid";
    "payment.authorized";
    "payment.captured";
    "payment.failed";
    "refund.created";
    "payment.dispute.created";
    "payment.dispute.won";
    "payment.dispute.lost";
    "payment.dispute.closed";
    "invoice.partially_paid";
    "invoice.paid";
    "invoice.expired";
    "subscription.activated";
    "subscription.charged";
    "subscription.completed";
    "subscription.updated";
    "subscription.pending";
    "subscription.halted";
    "subscription.cancelled";
    "settlement.processed";
    "virtual_account.created";
    "virtual_account.credited";
    "virtual_account.closed" ].

(** [EntityContain]: the category names. *)
Definition EntityContain : list string :=
  [ "payment"; "order"; "refund"; "dispute"; "invoice"; "subscription";
    "settlement"; "virtual_account" ].

(** ** [IActionHandler]: the table of callbacks *)

Module Order.
Record t := Build { paid : WebHookFunction }.
Definition with_paid (fn : WebHookFunction) (_ : t) : t := Build fn.
End Order.

Module Payment.
Record t := Build { authorized : WebHookFunction;
                    captured : WebHookFunction;
                    failed : WebHookFunction }.
Definition with_authorized fn (o : t) : t := Build fn (captured o) (failed o).
Definition with_captured fn (o : t) : t := Build (authorized o) fn (failed o).
Definition with_failed fn (o : t) : t := Build (authorized o) (captured o) fn.
End Payment.

Module Refund.
Record t := Build { created : WebHookFunction }.
Definition with_created (fn : WebHookFunction) (_ : t) : t := Build fn.
End Refund.

Module Dispute.
Record t := Build { created : WebHookFunction;
                    won : WebHookFunction;
                    lost : WebHookFunction;
                    closed : WebHookFunction }.
Definition with_created fn (o : t) : t := Build fn (won o) (lost o) (closed o).
Definition with_won fn (o : t) : t := Build (created o) fn (lost o) (closed o).
Definition with_lost fn (o : t) : t := Build (created o) (won o) fn (closed o).
Definition with_closed fn (o : t) : t := Build (created o) (won o) (lost o) fn.
End Dispute.

Module Invoice.
Record t := Build { partially_paid : WebHookFunction;
                    paid : WebHookFunction;
                    expired : WebHookFunction }.
Definition with_partially_paid fn (o : t) : t := Build fn (paid o) (expired o).
Definition with_paid fn (o : t) : t := Build (partially_paid o) fn (expired o).
Definition with_expired fn (o : t) : t := Build (partially_paid o) (paid o) fn.
End Invoice.

Module Subscription.
Record t := Build { activated : WebHookFunction;
                    charged : WebHookFunction;
                    completed : WebHookFunction;
                    updated : WebHookFunction;
                    pending : WebHookFunction;
                    halted : WebHookFunction;
                    cancelled : WebHookFunction }.
Definition with_activated fn (o : t) : t :=
  Build fn (charged o) (completed o) (updated o) (pending o) (halted o) (cancelled o).
Definition with_charged fn (o : t) : t :=
  Build (activated o) fn (completed o) (updated o) (pending o) (halted o) (cancelled o).
Definition with_completed fn (o : t) : t :=
  Build (activated o) (charged o) fn (updated o) (pending o) (halted o) (cancelled o).
Definition with_updated fn (o : t) : t :=
  Build (activated o) (charged o) (completed o) fn (pending o) (halted o) (cancelled o).
Definition with_pending fn (o : t) : t :=
  Build (activated o) (charged o) (completed o) (updated o) fn (halted o) (cancelled o).
Definition with_halted fn (o : t) : t :=
  Build (activated o) (charged o) (completed o) (updated o) (pending o) fn (cancelled o).
Definition with_cancelled fn (o : t) : t :=
  Build (activated o) (charged o) (completed o) (updated o) (pending o) (halted o) fn.
End Subscription.

Module Settlement.
Record t := Build { processed : WebHookFunction }.
Definition with_processed (fn : WebHookFunction) (_ : t) : t := Build fn.
End Settlement.

Module VirtualAccount.
Record t := Build { created : WebHookFunction;
                    credited : WebHookFunction;
                    closed : WebHookFunction }.
Definition with_created fn (o : t) : t := Build fn (credited o) (closed o).
Definition with_credited fn (o : t) : t := Build (created o) fn (closed o).
Definition with_closed fn (o : t) : t := Build (created o) (credited o) fn.
End VirtualAccount.

Record IActionHandler := {
  order : Order.t;
  payment : Payment.t;
  refund : Refund.t;
  dispute : Dispute.t;
  invoice : Invoice.t;
  subscription : Subscription.t;
  settlement : Settlement.t;
  virtual_account : VirtualAccount.t }.

(** Replacing one category object of the table, the others kept. *)
Definition with_order (f : Order.t -> Order.t) (h : IActionHandler) : IActionHandler :=
  {| order := f (order h); payment := payment h; refund := refund h;
     dispute := dispute h; invoice := invoice h; subscription := subscription h;
     settlement := settlement h; virtual_account := virtual_account h |}.
Definition with_payment (f : Payment.t -> Payment.t) (h : IActionHandler) : IActionHandler :=
  {| order := order h; payment := f (payment h); refund := refund h;
     dispute := dispute h; invoice := invoice h; subscription := subscription h;
     settlement := settlement h; virtual_account := virtual_account h |}.
Definition with_refund (f : Refund.t -> Refund.t) (h : IActionHandler) : IActionHandler :=
  {| order := order h; payment := payment h; refund := f (refund h);
     dispute := dispute h; invoice := invoice h; subscription := subscription h;
     settlement := settlement h; virtual_account := virtual_account h |}.
Definition with_dispute (f : Dispute.t -> Dispute.t) (h : IActionHandler) : IActionHandler :=
  {| order := order h; payment := payment h; refund := refund h;
     dispute := f (dispute h); invoice := invoice h; subscription := subscription h;
     settlement := settlement h; virtual_account := virtual_account h |}.
Definition with_invoice (f : Invoice.t -> Invoice.t) (h : IActionHandler) : IActionHandler :=
  {| order := order h; payment := payment h; refund := refund h;
     dispute := dispute h; invoice := f (invoice h); subscription := subscription h;
     settlement := settlement h; virtual_account := virtual_account h |}.
Definition with_subscription (f : Subscription.t -> Subscription.t) (h : IActionHandler)
  : IActionHandler :=
  {| order := order h; payment := payment h; refund := refund h;
     dispute := dispute h; invoice := invoice h; subscription := f (subscription h);
     settlement := settlement h; virtual_account := virtual_account h |}.
Definition with_settlement (f : Settlement.t -> Settlement.t) (h : IActionHandler)
  : IActionHandler :=
  {| order := order h; payment := payment h; refund := refund h;
     dispute := dispute h; invoice := invoice h; subscription := subscription h;
     settlement := f (settlement h); virtual_account := virtual_account h |}.
Definition with_virtual_account (f : VirtualAccount.t -> VirtualAccount.t) (h : IActionHandler)
  : IActionHandler :=
  {| order := order h; payment := payment h; refund := refund h;
     dispute := dispute h; invoice := invoice h; subscription := subscription h;
     settlement := settlement h; virtual_account := f (virtual_account h) |}.

(** A key of the table: the name of a category and of a callback in it. *)
Abbreviation Key := (string * string)%type.

(** The own properties of the table, two levels deep, in the order of the
    interface. *)
Definition entries (h : IActionHandler) : list (Key * WebHookFunction) :=
  [ (("order", "paid"), Order.paid (order h));
    (("payment", "authorized"), Payment.authorized (payment h));
    (("payment", "captured"), Payment.captured (payment h));
    (("payment", "failed"), Payment.failed (payment h));
    (("refund", "created"), Refund.created (refund h));
    (("dispute", "created"), Dispute.created (dispute h));
    (("dispute", "won"), Dispute.won (dispute h));
    (("dispute", "lost"), Dispute.lost (dispute h));
    (("dispute", "closed"), Dispute.closed (dispute h));
    (("invoice", "partially_paid"), Invoice.partially_paid (invoice h));
    (("invoice", "paid"), Invoice.paid (invoice h));
    (("invoice", "expired"), Invoice.expired (invoice h));
    (("subscription", "activated"), Subscription.activated (subscription h));
    (("subscription", "charged"), Subscription.charged (subscription h));
    (("subscription", "completed"), Subscription.completed (subscription h));
    (("subscription", "updated"), Subscription.updated (subscription h));
    (("subscription", "pending"), Subscription.pending (subscription h));
    (("subscription", "halted"), Subscription.halted (subscription h));
    (("subscription", "cancelled"), Subscription.cancelled (subscription h));
    (("settlement", "processed"), Settlement.processed (settlement h));
    (("virtual_account", "created"), VirtualAccount.created (virtual_account h));
    (("virtual_account", "credited"), VirtualAccount.credited (virtual_account h));
    (("virtual_account", "closed"), VirtualAccount.closed (virtual_account h)) ].

Definition key_eqb (k k' : Key) : bool :=
  String.eqb (fst k) (fst k') && String.eqb (snd k) (snd k').

Fixpoint assoc {A : Type} (k : Key) (l : list (Key * A)) : option A :=
  match l with
  | [] => None
  | (k', a) :: l' => if key_eqb k k' then Some a else assoc k l'
  end.

(** [h[category][name]], when both properties exist. *)
Definition entry (h : IActionHandler) (k : Key) : option WebHookFunction :=
  assoc k (entries h).

(** The object literal that initialises the table: every entry is
    [_mockAction]. *)
Definition initial : IActionHandler :=
  {| order := {| Order.paid := _mockAction |};
     payment := {| Payment.authorized := _mockAction;
                   Payment.captured := _mockAction;
                   Payment.failed := _mockAction |};
     refund := {| Refund.created := _mockAction |};
     dispute := {| Dispute.created := _mockAction;
                   Dispute.won := _mockAction;
                   Dispute.lost := _mockAction;
                   Dispute.closed := _mockAction |};
     invoice := {| Invoice.partially_paid := _mockAction;
                   Invoice.paid := _mockAction;
                   Invoice.expired := _mockAction |};
     subscription := {| Subscription.activated := _mockAction;
                        Subscription.charged := _mockAction;
                        Subscription.completed := _mockAction;
                        Subscription.updated := _mockAction;
                        Subscription.pending := _mockAction;
                        Subscription.halted := _mockAction;
                        Subscription.cancelled := _mockAction |};
     settlement := {| Settlement.processed := _mockAction |};
     virtual_account := {| VirtualAccount.created := _mockAction;
                           VirtualAccount.credited := _mockAction;
                           VirtualAccount.closed := _mockAction |} |}.

(** The keys of the table. *)
Definition keys : list Key := map fst (entries initial).

(** ** The heap *)

(** Plain objects (the payload and what it embeds) and the table objects
    of the [RazorWebhookHandler] instances, each under its address. *)
Record Store := {
  objects : gmap loc JsObject;
  tables : gmap loc IActionHandler }.

Definition with_tables (f : gmap loc IActionHandler -> gmap loc IActionHandler)
    (σ : Store) : Store :=
  {| objects := objects σ; tables := f (tables σ) |}.

(** The error of reading a property of [undefined] or [null], or of an
    object that is not there. *)
Definition TypeError : JsValue := JError "TypeError".

(** [v.p] for the property names the module reads: an object yields its own
    property or [undefined]; [undefined] and [null] throw; any other value
    has no such property. *)
Definition get (σ : Store) (v : JsValue) (p : string) : Completion JsValue :=
  match v with
  | JUndefined | JNull => Throw TypeError
  | JRef l =>
      match objects σ !! l with
      | Some o => Normal (default JUndefined (o !! p))
      | None => Normal JUndefined
      end
  | _ => Normal JUndefined
  end.

(** The functions of the host: what a call of the function [id] on an
    argument does to the heap and how it ends. *)
Class HostFunctions :=
  host_call : nat -> JsValue -> Store -> Completion Promise * Store.

(** [_mockAction(payload)] returns [Promise.resolve(true)]. *)
Definition mockAction (payload : JsValue) (σ : Store) : Completion Promise * Store :=
  (Normal (Promise_resolve (JBool true)), σ).

(** [fn(payload)]. *)
Definition call `{HostFunctions} (fn : WebHookFunction) (payload : JsValue) (σ : Store)
  : Completion Promise * Store :=
  match fn with
  | _mockAction => mockAction payload σ
  | HostFn id => host_call id payload σ
  end.

(** ** [class RazorWebhookHandler] *)

Module RazorWebhookHandler.

(** An instance holds the address of its table in [_handler]. *)
Record t := { _handler : loc }.

(** [new RazorWebhookHandler()]: the table is a new object, initialised
    by the literal. *)
Definition constructor (σ : Store) : t * Store :=
  let l := fresh (dom (tables σ)) in
  ({| _handler := l |}, with_tables (insert l initial) σ).

(** [get handler()]. *)
Definition handler (this : t) : loc := _handler this.

(** The setters, in the order of the class body. *)
Inductive Setter :=
| orderPaid
| refundCreated
| paymentAuthorized
| paymentCaptured
| paymentFailed
| disputeCreated
| disputeWon
| disputeLost
| disputeClosed
| invoicePartiallyPaid
| invoicePaid
| invoiceExpired
| subscriptionActivated
| subscriptionCharged
| subscriptionCompleted
| subscriptionUpdated
| subscriptionPending
| subscriptionHalted
| subscriptionCancelled
| settlementProcessed
| virtualAccountCreated
| virtualAccountCredited
| virtualAccountClosed.

#[global] Instance Setter_eq_dec : EqDecision Setter.
Proof. solve_decision. Defined.

Definition setters : list Setter :=
  [ orderPaid; refundCreated; paymentAuthorized; paymentCaptured; paymentFailed;
    disputeCreated; disputeWon; disputeLost; disputeClosed;
    invoicePartiallyPaid; invoicePaid; invoiceExpired;
    subscriptionActivated; subscriptionCharged; subscriptionCompleted;
    subscriptionUpdated; subscriptionPending; subscriptionHalted;
    subscriptionCancelled; settlementProcessed;
    virtualAccountCreated; virtualAccountCredited; virtualAccountClosed ].

(** The assignment in the body of each setter, on the table it
    reaches through [this._handler]. *)
Definition assign (s : Setter) (fn : WebHookFunction) : IActionHandler -> IActionHandler :=
  match s with
  | orderPaid => with_order (Order.with_paid fn)
  | refundCreated => with_refund (Refund.with_created fn)
  | paymentAuthorized => with_payment (Payment.with_authorized fn)
  | paymentCaptured => with_payment (Payment.with_captured fn)
  | paymentFailed => with_payment (Payment.with_failed fn)
  | disputeCreated => with_dispute (Dispute.with_created fn)
  | disputeWon => with_dispute (Dispute.with_won fn)
  | disputeLost => with_dispute (Dispute.with_lost fn)
  | disputeClosed => with_dispute (Dispute.with_closed fn)
  | invoicePartiallyPaid => with_invoice (Invoice.with_partially_paid fn)
  | invoicePaid => with_invoice (Invoice.with_paid fn)
  | invoiceExpired => with_invoice (Invoice.with_expired fn)
  | subscriptionActivated => with_subscription (Subscription.with_activated fn)
  | subscriptionCharged => with_subscription (Subscription.with_charged fn)
  | subscriptionCompleted => with_subscription (Subscription.with_completed fn)
  | subscriptionUpdated => with_subscription (Subscription.with_updated fn)
  | subscriptionPending => with_subscription (Subscription.with_pending fn)
  | subscriptionHalted => with_subscription (Subscription.with_halted fn)
  | subscriptionCancelled => with_subscription (Subscription.with_cancelled fn)
  | settlementProcessed => with_settlement (Settlement.with_processed fn)
  | virtualAccountCreated => with_virtual_account (VirtualAccount.with_created fn)
  | virtualAccountCredited => with_virtual_account (VirtualAccount.with_credited fn)
  | virtualAccountClosed => with_virtual_account (VirtualAccount.with_closed fn)
  end.

(** [this.<setter> = fn]: the table is updated in place. *)
Definition set (this : t) (s : Setter) (fn : WebHookFunction) (σ : Store)
  : Completion unit * Store :=
  match tables σ !! _handler this with
  | Some h => (Normal tt, with_tables (insert (_handler this) (assign s fn h)) σ)
  | None => (Throw TypeError, σ)
  end.

(** The event each setter is documented for (``SET`` Event Handle For). *)
Definition event_of (s : Setter) : string :=
  match s with
  | orderPaid => "order.paid"
  | refundCreated => "refund.created"
  | paymentAuthorized => "payment.authorized"
  | paymentCaptured => "payment.captured"
  | paymentFailed => "payment.failed"
  | disputeCreated => "payment.dispute.created"
  | disputeWon => "payment.dispute.won"
  | disputeLost => "payment.dispute.lost"
  | disputeClosed => "payment.dispute.closed"
  | invoicePartiallyPaid => "invoice.partially_paid"
  | invoicePaid => "invoice.paid"
  | invoiceExpired => "invoice.expired"
  | subscriptionActivated => "subscription.activated"
  | subscriptionCharged => "subscription.charged"
  | subscriptionCompleted => "subscription.completed"
  | subscriptionUpdated => "subscription.updated"
  | subscriptionPending => "subscription.pending"
  | subscriptionHalted => "subscription.halted"
  | subscriptionCancelled => "subscription.cancelled"
  | settlementProcessed => "settlement.processed"
  | virtualAccountCreated => "virtual_account.created"
  | virtualAccountCredited => "virtual_account.credited"
  | virtualAccountClosed => "virtual_account.closed"
  end.

(** The key each setter assigns to. *)
Definition key_of (s : Setter) : Key :=
  match s with
  | orderPaid => ("order", "paid")
  | refundCreated => ("refund", "created")
  | paymentAuthorized => ("payment", "authorized")
  | paymentCaptured => ("payment", "captured")
  | paymentFailed => ("payment", "failed")
  | disputeCreated => ("dispute", "created")
  | disputeWon => ("dispute", "won")
  | disputeLost => ("dispute", "lost")
  | disputeClosed => ("dispute", "closed")
  | invoicePartiallyPaid => ("invoice", "partially_paid")
  | invoicePaid => ("invoice", "paid")
  | invoiceExpired => ("invoice", "expired")
  | subscriptionActivated => ("subscription", "activated")
  | subscriptionCharged => ("subscription", "charged")
  | subscriptionCompleted => ("subscription", "completed")
  | subscriptionUpdated => ("subscription", "updated")
  | subscriptionPending => ("subscription", "pending")
  | subscriptionHalted => ("subscription", "halted")
  | subscriptionCancelled => ("subscription", "cancelled")
  | settlementProcessed => ("settlement", "processed")
  | virtualAccountCreated => ("virtual_account", "created")
  | virtualAccountCredited => ("virtual_account", "credited")
  | virtualAccountClosed => ("virtual_account", "closed")
  end.

End RazorWebhookHandler.

(** ** [class RazorWebhook] *)

(** What a run of [execute] leaves behind: how it ended, the heap, and the
    calls it made itself, oldest first, each with the function called and
    the argument passed. *)
Record Run := {
  completion : Completion Promise;
  store : Store;
  invoked : list (WebHookFunction * JsValue) }.

(** A [switch] over string literals whose cases all return: the cases are
    tried in order with [===]. *)
Definition is_case (v : JsValue) (literal : string) : bool :=
  match v with
  | JString s => String.eqb s literal
  | _ => false
  end.

Fixpoint switch {A : Type} (v : JsValue) (cases : list (string * A)) (otherwise : A) : A :=
  match cases with
  | [] => otherwise
  | (literal, body) :: cases' =>
      if is_case v literal then body else switch v cases' otherwise
  end.

Module RazorWebhook.

Record t := {
  _payload : JsValue;
  _handler : RazorWebhookHandler.t }.

(** [new RazorWebhook(payload)]. *)
Definition constructor (payload : JsValue) (σ : Store) : Completion t * Store :=
  if negb (truthy payload) then
    (Throw (JError "`payload` is mandatory"), σ)
  else
    let '(h, σ') := RazorWebhookHandler.constructor σ in
    (Normal {| _payload := payload; _handler := h |}, σ').

(** [get payload()]. *)
Definition payload (this : t) : JsValue := _payload this.

(** [get handler()]. *)
Definition handler (this : t) : RazorWebhookHandler.t := _handler this.

(** [return handler.<category>.<name>(pl)]: the table is read through
    its address, then the function found there is called. *)
Definition invoke `{HostFunctions} (handler : loc)
    (select : IActionHandler -> WebHookFunction) (pl : JsValue) (σ : Store) : Run :=
  match tables σ !! handler with
  | Some h =>
      let fn := select h in
      let '(c, σ') := call fn pl σ in
      {| completion := c; store := σ'; invoked := [(fn, pl)] |}
  | None => {| completion := Throw TypeError; store := σ; invoked := [] |}
  end.

(** [return Promise.reject(reason)]. *)
Definition reject (reason : JsValue) (σ : Store) : Run :=
  {| completion := Normal (Promise_reject reason); store := σ; invoked := [] |}.

Definition execute `{HostFunctions} (this : t) (σ : Store) : Run :=
  let pl := _payload this in
  let handler := RazorWebhookHandler.handler (_handler this) in
  match get σ (_payload this) "event" with
  | Throw e => {| completion := Throw e; store := σ; invoked := [] |}
  | Normal event =>
      switch event
        [ ("order.paid",
            invoke handler (λ h, Order.paid (order h)) pl);

          ("payment.authorized",
            invoke handler (λ h, Payment.authorized (payment h)) pl);
          ("payment.captured",
            invoke handler (λ h, Payment.captured (payment h)) pl);
          ("payment.failed",
            invoke handler (λ h, Payment.failed (payment h)) pl);

          ("refund.created",
            invoke handler (λ h, Refund.created (refund h)) pl);

          ("payment.dispute.created",
            invoke handler (λ h, Dispute.created (dispute h)) pl);
          ("payment.dispute.won",
            invoke handler (λ h, Dispute.won (dispute h)) pl);
          ("payment.dispute.lost",
            invoke handler (λ h, Dispute.lost (dispute h)) pl);
          ("payment.dispute.closed",
            invoke handler (λ h, Dispute.closed (dispute h)) pl);

          ("invoice.partially_paid",
            invoke handler (λ h, Invoice.partially_paid (invoice h)) pl);
          ("invoice.paid",
            invoke handler (λ h, Invoice.paid (invoice h)) pl);
          ("invoice.expired",
            invoke handler (λ h, Invoice.expired (invoice h)) pl);

          ("subscription.activated",
            invoke handler (λ h, Subscription.activated (subscription h)) pl);
          ("subscription.charged",
            invoke handler (λ h, Subscription.charged (subscription h)) pl);
          ("subscription.completed",
            invoke handler (λ h, Subscription.completed (subscription h)) pl);
          ("subscription.updated",
            invoke handler (λ h, Subscription.updated (subscription h)) pl);
          ("subscription.pending",
            invoke handler (λ h, Subscription.pending (subscription h)) pl);
          ("subscription.halted",
            invoke handler (λ h, Subscription.halted (subscription h)) pl);
          ("subscription.cancelled",
            invoke handler (λ h, Subscription.cancelled (subscription h)) pl);

          ("settlement.processed",
            invoke handler (λ h, Settlement.processed (settlement h)) pl);

          ("virtual_account.created",
            invoke handler (λ h, VirtualAccount.created (virtual_account h)) pl);
          ("virtual_account.credited",
            invoke handler (λ h, VirtualAccount.credited (virtual_account h)) pl);
          ("virtual_account.closed",
            invoke handler (λ h, VirtualAccount.closed (virtual_account h)) pl) ]
        (reject (JString "Payload event is currently isn't supported by RazorWebhook class."))
        σ
  end.

End RazorWebhook.

(** ** A host for the examples *)

Module Scenario.

(** Host function 0 reads [payload.payload.payment.entity.id] and resolves
    to it; host function 1 rejects with an error; host function 2 writes
    [seen: true] into the payload object and resolves to [undefined];
    any other one stays pending. *)
Definition path (σ : Store) (v : JsValue) (ps : list string) : Completion JsValue :=
  foldl (λ c p, match c with Normal v' => get σ v' p | Throw e => Throw e end)
        (Normal v) ps.

#[local] Instance host : HostFunctions := λ id pl σ,
  match id with
  | 0 => match path σ pl ["payload"; "payment"; "entity"; "id"] with
         | Normal v => (Normal (Promise_resolve v), σ)
         | Throw e => (Throw e, σ)
         end
  | 1 => (Normal (Promise_reject (JError "declined")), σ)
  | 2 => match pl with
         | JRef l =>
             (Normal (Promise_resolve JUndefined),
              {| objects := alter (insert "seen" (JBool true)) l (objects σ);
                 tables := tables σ |})
         | _ => (Normal (Promise_resolve JUndefined), σ)
         end
  | S (S (S n)) => (Normal (Pending n), σ)
  end.

(** The payload of the documentation's scenario at address 1; the objects
    it embeds follow. *)
Definition heap (event : JsValue) : gmap loc JsObject :=
  {[ 1%positive := {[ "entity" := JString "event";
                      "account_id" := JString "acc_1";
                      "event" := event;
                      "contains" := JRef 2;
                      "payload" := JRef 3;
                      "created_at" := JNumber 1700000000 ]};
     2%positive := {[ "0" := JString "payment"; "length" := JNumber 1 ]};
     3%positive := {[ "payment" := JRef 4 ]};
     4%positive := {[ "entity" := JRef 5 ]};
     5%positive := {[ "id" := JString "pay_1" ]} ]}.

Definition world (event : JsValue) : Store :=
  {| objects := heap event; tables := ∅ |}.

(** The dispatcher that [new RazorWebhook(payload)] builds in [world]
    for the payload at address 1, and the heap it leaves. *)
Definition webhook : RazorWebhook.t :=
  {| RazorWebhook._payload := JRef 1;
     RazorWebhook._handler := {| RazorWebhookHandler._handler := 1 |} |}.

Definition built (event : JsValue) : Store :=
  with_tables (insert 1%positive initial) (world event).

(** The same heap once [fn] is registered through the setter [s]. *)
Definition registered (s : RazorWebhookHandler.Setter) (fn : WebHookFunction)
    (event : JsValue) : Store :=
  with_tables (insert 1%positive (RazorWebhookHandler.assign s fn initial)) (world event).

End Scenario.

(** * Properties *)

Import RazorWebhookHandler.

(** The run of [execute] that consists of one call of [fn] on [pl]. *)
Definition one_call `{HostFunctions} (fn : WebHookFunction) (pl : JsValue) (σ : Store) : Run :=
  {| completion := fst (call fn pl σ);
     store := snd (call fn pl σ);
     invoked := [(fn, pl)] |}.

(** [needle] occurs in [text]. *)
Fixpoint occurs (needle text : string) : bool :=
  String.prefix needle text ||
  match text with
  | EmptyString => false
  | String _ text' => occurs needle text'
  end.

(** The text a rejection reason or a thrown value carries. *)
Definition message_of (v : JsValue) : option string :=
  match v with
  | JString s => Some s
  | JError m => Some m
  | _ => None
  end.

(** The run ends in a rejection whose text names the event [e]. *)
Definition names_event (r : Run) (e : string) : Prop :=
  ∃ reason msg,
    completion r = Normal (Rejected reason) ∧
    message_of reason = Some msg ∧
    occurs e msg = true.

(** Every setter used once, in the order of the class body, [fns] giving
    the callback for each. *)
Definition assign_all (fns : Setter → WebHookFunction) (h : IActionHandler) : IActionHandler :=
  fold_left (λ acc s, assign s (fns s) acc) setters h.

(** The callback a table holds for a setter's key. *)
Definition registered_for (h : IActionHandler) (s : Setter) : WebHookFunction :=
  default _mockAction (entry h (key_of s)).

(** The event string a key stands for: the category and the name joined by
    a dot, under "payment." for the dispute category. *)
Definition event_of_key (k : Key) : string :=
  (if String.eqb (fst k) "dispute" then "payment." else "") ++ fst k ++ "." ++ snd k.

(** A second dispatcher, built after [Scenario.webhook] on the same
    payload. *)
Definition second_webhook : RazorWebhook.t :=
  {| RazorWebhook._payload := JRef 1;
     RazorWebhook._handler := {| RazorWebhookHandler._handler := 2 |} |}.

(** A heap whose only object is a payload at address 1 that has nothing
    but its [event]. *)
Definition bare (event : JsValue) : Store :=
  {| objects := {[ 1%positive := {[ "event" := event ]} ]}; tables := ∅ |}.

(** ** The switch *)

Lemma is_case_true v literal : is_case v literal = true ↔ v = JString literal.
Proof.
  destruct v; simpl; try (split; [discriminate | congruence]).
  rewrite String.eqb_eq. split; congruence.
Qed.

Lemma switch_otherwise {A} v (cases : list (string * A)) otherwise :
  (∀ literal, In literal (map fst cases) → v ≠ JString literal) →
  switch v cases otherwise = otherwise.
Proof.
  induction cases as [|[literal body] cases IH]; intros Hv; [reflexivity|].
  simpl. destruct (is_case v literal) eqn:E.
  - apply is_case_true in E. exfalso. apply (Hv literal); [left; reflexivity | exact E].
  - apply IH. intros l Hl. apply Hv. right. exact Hl.
Qed.

(** The literals of the cases of [execute] are the members of
    [WebHookEvent], in the same order. *)
Lemma execute_unsupported `{HostFunctions} this σ v :
  get σ (RazorWebhook._payload this) "event" = Normal v →
  (∀ e, In e WebHookEvent → v ≠ JString e) →
  RazorWebhook.execute this σ =
    RazorWebhook.reject
      (JString "Payload event is currently isn't supported by RazorWebhook class.") σ.
Proof.
  intros Hget Hv. unfold RazorWebhook.execute. rewrite Hget.
  rewrite switch_otherwise; [reflexivity|]. exact Hv.
Qed.

Lemma invoke_one_call `{HostFunctions} l select pl σ h :
  tables σ !! l = Some h →
  RazorWebhook.invoke l select pl σ = one_call (select h) pl σ.
Proof.
  intros Hl. unfold RazorWebhook.invoke, one_call. rewrite Hl.
  destruct (call (select h) pl σ); reflexivity.
Qed.

(** On the event a setter is documented for, [execute] takes the case that
    reads the key this setter assigns to. *)
Lemma execute_invoke `{HostFunctions} this σ s :
  get σ (RazorWebhook._payload this) "event" = Normal (JString (event_of s)) →
  RazorWebhook.execute this σ =
    RazorWebhook.invoke (handler (RazorWebhook._handler this))
      (λ h, default _mockAction (entry h (key_of s))) (RazorWebhook._payload this) σ.
Proof.
  intros Hget. unfold RazorWebhook.execute. rewrite Hget.
  destruct s; reflexivity.
Qed.

Lemma entry_key_of h s : ∃ fn, entry h (key_of s) = Some fn.
Proof. destruct s; eexists; reflexivity. Qed.

Lemma execute_setter_event `{HostFunctions} this σ h s :
  get σ (RazorWebhook._payload this) "event" = Normal (JString (event_of s)) →
  tables σ !! handler (RazorWebhook._handler this) = Some h →
  ∃ fn, entry h (key_of s) = Some fn ∧
        RazorWebhook.execute this σ = one_call fn (RazorWebhook._payload this) σ.
Proof.
  intros Hget Ht. destruct (entry_key_of h s) as [fn Hfn]. exists fn. split; [exact Hfn|].
  rewrite (execute_invoke this σ s Hget), (invoke_one_call _ _ _ _ _ Ht), Hfn. reflexivity.
Qed.

(** When the table is not there, the read of the callback throws. *)
Lemma execute_no_table `{HostFunctions} this σ s :
  get σ (RazorWebhook._payload this) "event" = Normal (JString (event_of s)) →
  tables σ !! handler (RazorWebhook._handler this) = None →
  RazorWebhook.execute this σ = {| completion := Throw TypeError; store := σ; invoked := [] |}.
Proof.
  intros Hget Ht. rewrite (execute_invoke this σ s Hget).
  unfold RazorWebhook.invoke. rewrite Ht. reflexivity.
Qed.

Lemma WebHookEvent_setter e : In e WebHookEvent → ∃ s, event_of s = e.
Proof.
  intros Hin.
  assert (Hin' : In e (map event_of setters)) by (cbn in *; tauto).
  apply in_map_iff in Hin' as (s & Hs & _). eauto.
Qed.

Lemma event_of_inj s s' : event_of s = event_of s' → s = s'.
Proof. destruct s, s'; intros E; (reflexivity || discriminate E). Qed.

Lemma key_of_inj s s' : key_of s = key_of s' → s = s'.
Proof. destruct s, s'; intros E; (reflexivity || discriminate E). Qed.

Lemma setters_complete s : In s setters.
Proof. destruct s; cbn; tauto. Qed.

(** ** The table *)

Lemma key_eqb_eq k k' : key_eqb k k' = true ↔ k = k'.
Proof.
  destruct k as [c n], k' as [c' n']. unfold key_eqb. simpl.
  rewrite andb_true_iff, !String.eqb_eq. split; [intros [-> ->]; reflexivity|].
  intros [= -> ->]. split; reflexivity.
Qed.

(** Two association lists with the same keys, and the same values except
    under [k0], answer alike for any other key. *)
Lemma assoc_agree {A} (k0 k : Key) (l l' : list (Key * A)) :
  Forall2 (λ x y, fst x = fst y ∧ (fst x ≠ k0 → snd x = snd y)) l l' →
  k ≠ k0 → assoc k l = assoc k l'.
Proof.
  intros Hll Hk. induction Hll as [|[k1 a] [k2 a'] l l' [Hkeys Hvals] _ IH]; [reflexivity|].
  simpl in *. subst k2. destruct (key_eqb k k1) eqn:E; [|exact IH].
  apply key_eqb_eq in E. subst k1. rewrite (Hvals Hk). reflexivity.
Qed.

Lemma entry_assign_eq s fn h : entry (assign s fn h) (key_of s) = Some fn.
Proof. destruct s; reflexivity. Qed.

Lemma entry_assign_ne s fn h k : k ≠ key_of s → entry (assign s fn h) k = entry h k.
Proof.
  intros Hk. unfold entry. apply (assoc_agree (key_of s)); [|exact Hk].
  destruct s; unfold entries;
    repeat (constructor;
            [split; [reflexivity | intros Hne; first [reflexivity | exfalso; apply Hne; reflexivity]]|]);
    constructor.
Qed.

Lemma entry_initial k : In k keys → entry initial k = Some _mockAction.
Proof.
  cbn. intros Hk.
  repeat (destruct Hk as [<-|Hk]; [reflexivity|]). destruct Hk.
Qed.

Lemma entry_is_Some h k : In k keys → is_Some (entry h k).
Proof.
  cbn. intros Hk.
  repeat (destruct Hk as [<-|Hk]; [eexists; reflexivity|]). destruct Hk.
Qed.

(** ** The heap under the two classes *)

Lemma get_with_tables f σ v p : get (with_tables f σ) v p = get σ v p.
Proof. destruct v; reflexivity. Qed.

Lemma set_allocated this s fn σ h :
  tables σ !! _handler this = Some h →
  set this s fn σ = (Normal tt, with_tables (insert (_handler this) (assign s fn h)) σ).
Proof. intros Ht. unfold set. rewrite Ht. reflexivity. Qed.

Lemma tables_insert_eq l h σ : tables (with_tables (insert l h) σ) !! l = Some h.
Proof. simpl. apply lookup_insert_eq. Qed.

Lemma tables_insert_ne l l' h σ :
  l ≠ l' → tables (with_tables (insert l h) σ) !! l' = tables σ !! l'.
Proof. intros Hl. simpl. apply lookup_insert_ne. exact Hl. Qed.

Lemma constructor_fresh σ : tables σ !! _handler (fst (constructor σ)) = None.
Proof.
  simpl. apply not_elem_of_dom. apply is_fresh.
Qed.

Lemma RazorWebhook_constructor_truthy payload σ :
  truthy payload = true →
  RazorWebhook.constructor payload σ =
    (Normal {| RazorWebhook._payload := payload;
               RazorWebhook._handler := fst (constructor σ) |},
     snd (constructor σ)).
Proof. intros Hp. unfold RazorWebhook.constructor. rewrite Hp. reflexivity. Qed.

Lemma RazorWebhook_constructor_falsy payload σ :
  truthy payload = false →
  RazorWebhook.constructor payload σ = (Throw (JError "`payload` is mandatory"), σ).
Proof. intros Hp. unfold RazorWebhook.constructor. rewrite Hp. reflexivity. Qed.

(** The constructor throws exactly on the falsy values. *)
Lemma RazorWebhook_constructor_throws_iff payload σ :
  (∃ e, fst (RazorWebhook.constructor payload σ) = Throw e) ↔ truthy payload = false.
Proof.
  destruct (truthy payload) eqn:Hp.
  - rewrite (RazorWebhook_constructor_truthy _ _ Hp). simpl.
    split; [intros [e He]; discriminate He | discriminate].
  - rewrite (RazorWebhook_constructor_falsy _ _ Hp). simpl.
    split; [reflexivity | eauto].
Qed.

(** The categories of the keys are the names of [EntityContain]. *)
Lemma keys_categories c : In c EntityContain ↔ ∃ n, In (c, n) keys.
Proof.
  split.
  - cbn. intros Hc.
    repeat (destruct Hc as [<-|Hc]; [eexists; cbn; eauto 30|]). destruct Hc.
  - intros [n Hk]. cbn in Hk.
    repeat (destruct Hk as [[= <- <-]|Hk]; [cbn; tauto|]). destruct Hk.
Qed.

(** ** The documentation's scenarios, run *)

Example scenario_payment_captured :
  let σ := Scenario.registered paymentCaptured (HostFn 0) (JString "payment.captured") in
  RazorWebhook.execute (H := Scenario.host) Scenario.webhook σ =
    {| completion := Normal (Fulfilled (JString "pay_1"));
       store := σ;
       invoked := [(HostFn 0, JRef 1)] |}.
Proof. vm_compute. reflexivity. Qed.

Example scenario_subscription_halted :
  let σ := Scenario.built (JString "subscription.halted") in
  RazorWebhook.execute (H := Scenario.host) Scenario.webhook σ =
    {| completion := Normal (Fulfilled (JBool true));
       store := σ;
       invoked := [(_mockAction, JRef 1)] |}.
Proof. vm_compute. reflexivity. Qed.

Example scenario_rejecting_callback :
  let σ := Scenario.registered paymentFailed (HostFn 1) (JString "payment.failed") in
  RazorWebhook.execute (H := Scenario.host) Scenario.webhook σ =
    {| completion := Normal (Rejected (JError "declined"));
       store := σ;
       invoked := [(HostFn 1, JRef 1)] |}.
Proof. vm_compute. reflexivity. Qed.

Example scenario_unknown_event :
  let σ := Scenario.built (JString "unknown.event") in
  RazorWebhook.execute (H := Scenario.host) Scenario.webhook σ =
    {| completion :=
         Normal (Rejected
                   (JString "Payload event is currently isn't supported by RazorWebhook class."));
       store := σ;
       invoked := [] |}.
Proof. vm_compute. reflexivity. Qed.

(** A callback that writes into the payload: the change is in the heap
    [execute] leaves, the table is as before. *)
Example scenario_writing_callback :
  let σ := Scenario.registered orderPaid (HostFn 2) (JString "order.paid") in
  let r := RazorWebhook.execute (H := Scenario.host) Scenario.webhook σ in
  invoked r = [(HostFn 2, JRef 1)] ∧
  get (store r) (JRef 1) "seen" = Normal (JBool true) ∧
  get σ (JRef 1) "seen" = Normal JUndefined ∧
  tables (store r) = tables σ.
Proof. vm_compute. repeat split. Qed.

(** "refund.created" dispatched twice, another callback registered in
    between. *)
Example scenario_reregistration :
  let σ0 := Scenario.built (JString "refund.created") in
  let h := RazorWebhook.handler Scenario.webhook in
  ∃ σ1 σ2,
    set h refundCreated (HostFn 0) σ0 = (Normal tt, σ1) ∧
    invoked (RazorWebhook.execute (H := Scenario.host) Scenario.webhook σ1)
      = [(HostFn 0, JRef 1)] ∧
    set h refundCreated (HostFn 1)
        (store (RazorWebhook.execute (H := Scenario.host) Scenario.webhook σ1))
      = (Normal tt, σ2) ∧
    invoked (RazorWebhook.execute (H := Scenario.host) Scenario.webhook σ2)
      = [(HostFn 1, JRef 1)].
Proof.
  exists (Scenario.registered refundCreated (HostFn 0) (JString "refund.created")),
         (Scenario.registered refundCreated (HostFn 1) (JString "refund.created")).
  vm_compute. repeat split.
Qed.

Example scenario_constructor :
  RazorWebhook.constructor (JRef 1) (Scenario.world (JString "order.paid"))
    = (Normal Scenario.webhook, Scenario.built (JString "order.paid")) ∧
  RazorWebhook.constructor JNull (Scenario.world (JString "order.paid"))
    = (Throw (JError "`payload` is mandatory"), Scenario.world (JString "order.paid")).
Proof. vm_compute. split; reflexivity. Qed.

(** The discriminant of the switch is a string of the enumeration or is
    matched by no case. *)
Lemma event_known_or_not v :
  (∃ e, In e WebHookEvent ∧ v = JString e) ∨ (∀ e, In e WebHookEvent → v ≠ JString e).
Proof.
  destruct v as [| | | |s| |]; try (right; intros e _; discriminate).
  destruct (in_dec string_dec s WebHookEvent) as [Hin|Hout].
  - left. exists s. split; [exact Hin | reflexivity].
  - right. intros e He [= ->]. exact (Hout He).
Qed.

(** [NoDup] of a list that is written out, by its decision procedure. *)
Ltac decide_NoDup :=
  match goal with
  | |- NoDup ?l => refine (bool_decide_unpack (NoDup l) _); vm_compute; reflexivity
  end.

(** * The claims *)

Section Dispatch.
Context `{HostFunctions}.

(** C1.  For every event string of the enumeration, [execute] on a
    dispatcher whose payload carries that event makes exactly one call:
    of the callback that the table holds under the key of the one setter
    documented for the event, with the dispatcher's payload reference as
    the argument and on the heap as [execute] found it; what [execute]
    returns is what that call returned, be it a fulfilled, rejected or
    pending promise or a synchronous throw, and the heap it leaves is the
    one the callback left. *)
Theorem execute_known_event (this : RazorWebhook.t) (σ : Store)
    (h : IActionHandler) (e : string) :
  In e WebHookEvent →
  get σ (RazorWebhook._payload this) "event" = Normal (JString e) →
  tables σ !! handler (RazorWebhook.handler this) = Some h →
  ∃ s fn,
    event_of s = e ∧ (∀ s', event_of s' = e → s' = s) ∧
    entry h (key_of s) = Some fn ∧
    RazorWebhook.execute this σ =
      {| completion := fst (call fn (RazorWebhook._payload this) σ);
         store := snd (call fn (RazorWebhook._payload this) σ);
         invoked := [(fn, RazorWebhook._payload this)] |}.
Proof.
  intros He Hget Ht.
  destruct (WebHookEvent_setter e He) as [s Hs]. subst e.
  destruct (execute_setter_event this σ h s Hget Ht) as (fn & Hfn & Hrun).
  exists s, fn. split; [reflexivity|]. split.
  - intros s' Hs'. apply event_of_inj. exact Hs'.
  - split; [exact Hfn | exact Hrun].
Qed.

(** C2, as amended.  For an event string outside the enumeration,
    [execute] returns normally a rejected promise (it does not throw,
    and the promise is not fulfilled), calls no callback and leaves the
    heap as it was; the reason is one fixed text, which says that the
    payload event is not supported and is the same whatever the event. *)
Theorem execute_unknown_event_rejects (this : RazorWebhook.t) (σ : Store) (e : string) :
  ¬ In e WebHookEvent →
  get σ (RazorWebhook._payload this) "event" = Normal (JString e) →
  ∃ msg,
    RazorWebhook.execute this σ =
      {| completion := Normal (Promise_reject (JString msg)); store := σ; invoked := [] |} ∧
    occurs "isn't supported" msg = true ∧
    ∀ this' σ' e',
      ¬ In e' WebHookEvent →
      get σ' (RazorWebhook._payload this') "event" = Normal (JString e') →
      completion (RazorWebhook.execute this' σ') = Normal (Promise_reject (JString msg)).
Proof.
  intros He Hget. eexists. split; [|split].
  - apply (execute_unsupported this σ (JString e) Hget).
    intros e0 He0 [= ->]. exact (He He0).
  - reflexivity.
  - intros this' σ' e' He' Hget'.
    rewrite (execute_unsupported this' σ' (JString e') Hget'); [reflexivity|].
    intros e0 He0 [= ->]. exact (He' He0).
Qed.

End Dispatch.

(** C1 at the documentation's scenario: [paymentCaptured] registered to a
    function that returns the payment's id. *)
Lemma execute_known_event_witness :
  In "payment.captured" WebHookEvent ∧
  get (Scenario.registered paymentCaptured (HostFn 0) (JString "payment.captured"))
      (JRef 1) "event" = Normal (JString "payment.captured") ∧
  ∃ s fn,
    event_of s = "payment.captured" ∧ (∀ s', event_of s' = "payment.captured" → s' = s) ∧
    entry (assign paymentCaptured (HostFn 0) initial) (key_of s) = Some fn ∧
    RazorWebhook.execute (H := Scenario.host) Scenario.webhook
        (Scenario.registered paymentCaptured (HostFn 0) (JString "payment.captured")) =
      {| completion :=
           fst (call (H := Scenario.host) fn (JRef 1)
                  (Scenario.registered paymentCaptured (HostFn 0) (JString "payment.captured")));
         store :=
           snd (call (H := Scenario.host) fn (JRef 1)
                  (Scenario.registered paymentCaptured (HostFn 0) (JString "payment.captured")));
         invoked := [(fn, JRef 1)] |}.
Proof.
  split; [cbn; tauto|]. split; [vm_compute; reflexivity|].
  apply (execute_known_event (H := Scenario.host) Scenario.webhook
           (Scenario.registered paymentCaptured (HostFn 0) (JString "payment.captured"))
           (assign paymentCaptured (HostFn 0) initial) "payment.captured").
  - cbn; tauto.
  - vm_compute; reflexivity.
  - vm_compute; reflexivity.
Defined.

(** C2 as stated fails: the rejection for ["unknown.event"] carries a text
    in which that event does not occur. *)
Lemma unknown_event_not_named :
  ¬ names_event
      (RazorWebhook.execute (H := Scenario.host) Scenario.webhook
         (Scenario.built (JString "unknown.event")))
      "unknown.event".
Proof.
  intros (reason & msg & Hc & Hm & Ho).
  vm_compute in Hc. injection Hc as <-.
  injection Hm as <-. vm_compute in Ho. discriminate Ho.
Qed.

Lemma execute_unknown_event_rejects_witness :
  ¬ In "unknown.event" WebHookEvent ∧
  get (Scenario.built (JString "unknown.event")) (JRef 1) "event"
    = Normal (JString "unknown.event") ∧
  ∃ msg,
    RazorWebhook.execute (H := Scenario.host) Scenario.webhook
        (Scenario.built (JString "unknown.event")) =
      {| completion := Normal (Promise_reject (JString msg));
         store := Scenario.built (JString "unknown.event");
         invoked := [] |} ∧
    occurs "isn't supported" msg = true ∧
    ∀ this' σ' e',
      ¬ In e' WebHookEvent →
      get σ' (RazorWebhook._payload this') "event" = Normal (JString e') →
      completion (RazorWebhook.execute (H := Scenario.host) this' σ')
        = Normal (Promise_reject (JString msg)).
Proof.
  assert (Hout : ¬ In "unknown.event" WebHookEvent).
  { cbn. intros Hin. repeat (destruct Hin as [Hin|Hin]; [discriminate Hin|]). exact Hin. }
  split; [exact Hout|]. split; [vm_compute; reflexivity|].
  apply (execute_unknown_event_rejects (H := Scenario.host) Scenario.webhook
           (Scenario.built (JString "unknown.event")) "unknown.event").
  - exact Hout.
  - vm_compute; reflexivity.
Defined.

(** C3 as stated fails: neither the enumeration nor the setters number 22. *)
Lemma enumeration_not_22 :
  ¬ (length WebHookEvent = 22 ∧ length setters = 22).
Proof. intros [Hlen _]. vm_compute in Hlen. discriminate Hlen. Qed.

(** C3, as amended.  [WebHookEvent] consists of exactly 23 distinct event
    strings; the class has exactly 23 setters, each documented for an
    event of its own and assigning to a key of its own, and these events
    and keys are exactly the members of [WebHookEvent] and the 23 keys of
    the table. *)
Theorem enumeration_and_setters :
  length WebHookEvent = 23 ∧ NoDup WebHookEvent ∧
  length setters = 23 ∧ NoDup setters ∧ (∀ s, In s setters) ∧
  length keys = 23 ∧ NoDup keys ∧
  (∀ s s', event_of s = event_of s' → s = s') ∧
  (∀ s s', key_of s = key_of s' → s = s') ∧
  (∀ e, In e WebHookEvent ↔ ∃ s, event_of s = e) ∧
  (∀ k, In k keys ↔ ∃ s, key_of s = k) ∧
  (∀ s fn h, entry (assign s fn h) (key_of s) = Some fn).
Proof.
  assert (Hevents : map event_of setters ≡ₚ WebHookEvent).
  { cbn. apply (NoDup_Permutation _ _); [| |].
    - decide_NoDup.
    - decide_NoDup.
    - intros x. rewrite !list_elem_of_In. cbn. tauto. }
  assert (Hkeys : map key_of setters ≡ₚ keys).
  { cbn. apply (NoDup_Permutation _ _); [| |].
    - decide_NoDup.
    - decide_NoDup.
    - intros x. rewrite !list_elem_of_In. cbn. tauto. }
  split; [reflexivity|]. split; [decide_NoDup|].
  split; [reflexivity|]. split; [decide_NoDup|].
  split; [exact setters_complete|].
  split; [reflexivity|]. split; [decide_NoDup|].
  split; [exact event_of_inj|]. split; [exact key_of_inj|].
  split; [|split]; [| |exact entry_assign_eq].
  - intros e. split.
    + apply WebHookEvent_setter.
    + intros [s <-]. apply (Permutation_in _ Hevents), in_map, setters_complete.
  - intros k. split.
    + intros Hk. apply (Permutation_in _ (Permutation_sym Hkeys)), in_map_iff in Hk.
      destruct Hk as (s & Hs & _). eauto.
    + intros [s <-]. apply (Permutation_in _ Hkeys), in_map, setters_complete.
Qed.

Section Registry.
Context `{HostFunctions}.

(** C4.  The table of a newly built registry holds [_mockAction] under
    every key; a call of [_mockAction] leaves the heap as it was and
    returns a promise fulfilled with [true], a truthy value; hence on a
    dispatcher as the constructor built it, a payload with any event of
    the enumeration is dispatched to [_mockAction] alone and [execute]
    returns that fulfilled promise, the heap untouched. *)
Theorem default_registry_dispatch (payload : JsValue) (σ0 σ : Store)
    (this : RazorWebhook.t) (e : string) :
  RazorWebhook.constructor payload σ0 = (Normal this, σ) →
  In e WebHookEvent →
  get σ0 payload "event" = Normal (JString e) →
  tables σ !! handler (RazorWebhook.handler this) = Some initial ∧
  (∀ k, In k keys → entry initial k = Some _mockAction) ∧
  (∀ pl σ', call _mockAction pl σ' = (Normal (Promise_resolve (JBool true)), σ')) ∧
  truthy (JBool true) = true ∧
  RazorWebhook.execute this σ =
    {| completion := Normal (Fulfilled (JBool true));
       store := σ;
       invoked := [(_mockAction, payload)] |}.
Proof.
  intros Hnew He Hget.
  destruct (truthy payload) eqn:Hp.
  2:{ rewrite (RazorWebhook_constructor_falsy _ _ Hp) in Hnew. discriminate Hnew. }
  rewrite (RazorWebhook_constructor_truthy _ _ Hp) in Hnew.
  injection Hnew as <- <-.
  assert (Ht : tables (snd (constructor σ0))
                 !! handler (fst (constructor σ0)) = Some initial)
    by apply tables_insert_eq.
  split; [exact Ht|]. split; [exact entry_initial|].
  split; [reflexivity|]. split; [reflexivity|].
  destruct (WebHookEvent_setter e He) as [s <-].
  rewrite <- (get_with_tables (insert (fresh (dom (tables σ0))) initial)) in Hget.
  destruct (execute_setter_event
              {| RazorWebhook._payload := payload;
                 RazorWebhook._handler := fst (constructor σ0) |}
              _ _ s Hget Ht) as (fn & Hfn & Hrun).
  assert (fn = _mockAction) as ->.
  { destruct s; injection Hfn as <-; reflexivity. }
  exact Hrun.
Qed.

(** C5.  With a table in place and a payload carrying the event of the
    setter [s]: registering [f] and then [g] through [s] and dispatching
    calls [g] alone (so not [f], when they differ); and a dispatch
    between the two registrations calls [f] alone, after which, the
    payload still carrying that event and the table still being there,
    registering [g] and dispatching again calls [g] alone.  Each dispatch
    calls what the table holds when it runs. *)
Theorem last_registration_wins (this : RazorWebhook.t) (σ : Store)
    (h : IActionHandler) (s : Setter) (f g : WebHookFunction) :
  tables σ !! handler (RazorWebhook.handler this) = Some h →
  get σ (RazorWebhook._payload this) "event" = Normal (JString (event_of s)) →
  ∃ σ1 σ2,
    set (RazorWebhook.handler this) s f σ = (Normal tt, σ1) ∧
    set (RazorWebhook.handler this) s g σ1 = (Normal tt, σ2) ∧
    RazorWebhook.execute this σ2 = one_call g (RazorWebhook._payload this) σ2 ∧
    (f ≠ g → ¬ In f (map fst (invoked (RazorWebhook.execute this σ2)))) ∧
    RazorWebhook.execute this σ1 = one_call f (RazorWebhook._payload this) σ1 ∧
    ∀ σ1',
      σ1' = store (RazorWebhook.execute this σ1) →
      is_Some (tables σ1' !! handler (RazorWebhook.handler this)) →
      get σ1' (RazorWebhook._payload this) "event" = Normal (JString (event_of s)) →
      ∃ σ3,
        set (RazorWebhook.handler this) s g σ1' = (Normal tt, σ3) ∧
        RazorWebhook.execute this σ3 = one_call g (RazorWebhook._payload this) σ3.
Proof.
  intros Ht Hget.
  assert (Hset : ∀ fn σa ha,
    tables σa !! handler (RazorWebhook.handler this) = Some ha →
    get σa (RazorWebhook._payload this) "event" = Normal (JString (event_of s)) →
    ∃ σb, set (RazorWebhook.handler this) s fn σa = (Normal tt, σb) ∧
          tables σb !! handler (RazorWebhook.handler this) = Some (assign s fn ha) ∧
          get σb (RazorWebhook._payload this) "event" = Normal (JString (event_of s)) ∧
          RazorWebhook.execute this σb = one_call fn (RazorWebhook._payload this) σb).
  { intros fn σa ha Hta Hga.
    exists (with_tables (insert (handler (RazorWebhook.handler this)) (assign s fn ha)) σa).
    split; [exact (set_allocated _ _ _ _ _ Hta)|].
    assert (Htb := tables_insert_eq (handler (RazorWebhook.handler this)) (assign s fn ha) σa).
    split; [exact Htb|].
    rewrite <- (get_with_tables
                  (insert (handler (RazorWebhook.handler this)) (assign s fn ha))) in Hga.
    split; [exact Hga|].
    destruct (execute_setter_event _ _ _ s Hga Htb) as (fn' & Hfn' & Hrun).
    rewrite entry_assign_eq in Hfn'. injection Hfn' as <-. exact Hrun. }
  destruct (Hset f σ h Ht Hget) as (σ1 & Hs1 & Ht1 & Hg1 & Hx1).
  destruct (Hset g σ1 _ Ht1 Hg1) as (σ2 & Hs2 & Ht2 & Hg2 & Hx2).
  exists σ1, σ2. split; [exact Hs1|]. split; [exact Hs2|]. split; [exact Hx2|].
  split.
  { intros Hfg. rewrite Hx2. simpl. intros [Hin|[]]. exact (Hfg (eq_sym Hin)). }
  split; [exact Hx1|].
  intros σ1' _ [h1' Ht1'] Hg1'.
  destruct (Hset g σ1' h1' Ht1' Hg1') as (σ3 & Hs3 & _ & _ & Hx3).
  exists σ3. split; [exact Hs3 | exact Hx3].
Qed.

End Registry.

(** C6.  [new RazorWebhook(payload)] throws for [null] and for [undefined],
    leaving the heap as it was and yielding no dispatcher, hence nothing to
    call [execute] on; for a reference to an object it succeeds whatever
    the heap holds at that address, keeps that reference as the payload and
    gives the dispatcher a table of its own, the objects untouched. *)
Theorem constructor_validation (σ : Store) :
  RazorWebhook.constructor JNull σ = (Throw (JError "`payload` is mandatory"), σ) ∧
  RazorWebhook.constructor JUndefined σ = (Throw (JError "`payload` is mandatory"), σ) ∧
  ∀ l, ∃ this σ',
    RazorWebhook.constructor (JRef l) σ = (Normal this, σ') ∧
    RazorWebhook._payload this = JRef l ∧
    objects σ' = objects σ ∧
    tables σ' !! handler (RazorWebhook.handler this) = Some initial.
Proof.
  split; [reflexivity|]. split; [reflexivity|].
  intros l. eexists _, _. split; [reflexivity|]. split; [reflexivity|].
  split; [reflexivity|]. apply tables_insert_eq.
Qed.

(** C7.  On a registry whose table is in place, every setter succeeds
    whatever the callback and whatever the entry held before; afterwards
    the table holds the callback under the setter's key and, under every
    other key, what it held before; no other table and no object of the
    heap is changed. *)
Theorem setter_frame (this : RazorWebhookHandler.t) (s : Setter) (fn : WebHookFunction)
    (σ : Store) (h : IActionHandler) :
  tables σ !! handler this = Some h →
  ∃ σ' h',
    set this s fn σ = (Normal tt, σ') ∧
    tables σ' !! handler this = Some h' ∧
    entry h' (key_of s) = Some fn ∧
    (∀ k, k ≠ key_of s → entry h' k = entry h k) ∧
    (∀ l, l ≠ handler this → tables σ' !! l = tables σ !! l) ∧
    objects σ' = objects σ.
Proof.
  intros Ht.
  exists (with_tables (insert (handler this) (assign s fn h)) σ), (assign s fn h).
  split; [exact (set_allocated _ _ _ _ _ Ht)|].
  split; [apply tables_insert_eq|].
  split; [apply entry_assign_eq|].
  split; [intros k Hk; apply entry_assign_ne; exact Hk|].
  split; [|reflexivity].
  intros l Hl. apply tables_insert_ne. congruence.
Qed.

Section Outcomes.
Context `{HostFunctions}.

(** C8.  Whenever the payload's event is not a string of the
    enumeration (another string, or no string at all), [execute] returns
    a promise rejected with the string
    "Payload event is currently isn't supported by RazorWebhook class.":
    a string value and not an [Error], and the same for every such
    event. *)
Theorem unsupported_rejection_is_fixed_string (this : RazorWebhook.t) (σ : Store)
    (v : JsValue) :
  get σ (RazorWebhook._payload this) "event" = Normal v →
  (∀ e, In e WebHookEvent → v ≠ JString e) →
  completion (RazorWebhook.execute this σ) =
    Normal (Promise_reject
              (JString "Payload event is currently isn't supported by RazorWebhook class.")) ∧
  ∀ reason,
    completion (RazorWebhook.execute this σ) = Normal (Promise_reject reason) →
    (∀ m, reason ≠ JError m) ∧
    ∀ this' σ' v',
      get σ' (RazorWebhook._payload this') "event" = Normal v' →
      (∀ e, In e WebHookEvent → v' ≠ JString e) →
      completion (RazorWebhook.execute this' σ') = Normal (Promise_reject reason).
Proof.
  intros Hget Hv. rewrite (execute_unsupported this σ v Hget Hv).
  split; [reflexivity|].
  intros reason [= <-]. split; [discriminate|].
  intros this' σ' v' Hget' Hv'.
  rewrite (execute_unsupported this' σ' v' Hget' Hv'). reflexivity.
Qed.

(** C9.  For each of the four events "payment.dispute.created", ".won",
    ".lost" and ".closed", [execute] calls the callback held under the
    key of the dispute category with that name, which is the key the
    setter [disputeCreated], [disputeWon], [disputeLost] or
    [disputeClosed] assigns to; whatever the payment category of the
    table is replaced by, the same callback is called. *)
Theorem dispute_events_use_dispute_category (this : RazorWebhook.t) (σ : Store)
    (h : IActionHandler) (name : string) :
  In name ["created"; "won"; "lost"; "closed"] →
  get σ (RazorWebhook._payload this) "event"
    = Normal (JString ("payment.dispute." ++ name)) →
  tables σ !! handler (RazorWebhook.handler this) = Some h →
  ∃ s fn,
    In s [disputeCreated; disputeWon; disputeLost; disputeClosed] ∧
    event_of s = "payment.dispute." ++ name ∧
    key_of s = ("dispute", name) ∧
    entry h ("dispute", name) = Some fn ∧
    RazorWebhook.execute this σ = one_call fn (RazorWebhook._payload this) σ ∧
    ∀ (f : Payment.t → Payment.t) σ',
      objects σ' = objects σ →
      tables σ' !! handler (RazorWebhook.handler this) = Some (with_payment f h) →
      invoked (RazorWebhook.execute this σ') = [(fn, RazorWebhook._payload this)].
Proof.
  intros Hname Hget Ht.
  assert (Hs : ∃ s, In s [disputeCreated; disputeWon; disputeLost; disputeClosed] ∧
                    event_of s = "payment.dispute." ++ name ∧
                    key_of s = ("dispute", name)).
  { cbn in Hname. destruct Hname as [<-|[<-|[<-|[<-|[]]]]].
    - exists disputeCreated. cbn. tauto.
    - exists disputeWon. cbn. tauto.
    - exists disputeLost. cbn. tauto.
    - exists disputeClosed. cbn. tauto. }
  destruct Hs as (s & Hin & Hev & Hkey). exists s.
  rewrite <- Hev in Hget.
  destruct (execute_setter_event this σ h s Hget Ht) as (fn & Hfn & Hrun).
  exists fn. rewrite <- Hkey.
  split; [exact Hin|]. split; [exact Hev|]. split; [reflexivity|].
  split; [exact Hfn|]. split; [exact Hrun|].
  intros f σ' Hobj Ht'.
  assert (Hget' : get σ' (RazorWebhook._payload this) "event"
                  = Normal (JString (event_of s))).
  { rewrite <- Hget. unfold get. rewrite Hobj. reflexivity. }
  destruct (execute_setter_event this σ' _ s Hget' Ht') as (fn' & Hfn' & ->).
  assert (fn' = fn) as ->.
  { cbn in Hin. destruct Hin as [<-|[<-|[<-|[<-|[]]]]];
      cbn in Hfn, Hfn'; congruence. }
  reflexivity.
Qed.

(** C10.  A run of [execute] either calls nothing and leaves the heap
    exactly as it was (the payload object, every table and every entry
    of it), or it makes one call, of a callback on the dispatcher's
    payload, and then the heap it leaves is the heap that call left and
    its completion is that call's: whatever differs afterwards was changed
    by the callback.  If the event is not a string of the enumeration the
    first case holds; and if the callbacks called leave the heap alone,
    so does [execute]. *)
Theorem execute_frame (this : RazorWebhook.t) (σ : Store) :
  ((invoked (RazorWebhook.execute this σ) = [] ∧
    store (RazorWebhook.execute this σ) = σ) ∨
   (∃ fn,
      invoked (RazorWebhook.execute this σ) = [(fn, RazorWebhook._payload this)] ∧
      completion (RazorWebhook.execute this σ) = fst (call fn (RazorWebhook._payload this) σ) ∧
      store (RazorWebhook.execute this σ) = snd (call fn (RazorWebhook._payload this) σ))) ∧
  (∀ v, get σ (RazorWebhook._payload this) "event" = Normal v →
        (∀ e, In e WebHookEvent → v ≠ JString e) →
        invoked (RazorWebhook.execute this σ) = [] ∧
        store (RazorWebhook.execute this σ) = σ) ∧
  ((∀ fn pl, In (fn, pl) (invoked (RazorWebhook.execute this σ)) →
             snd (call fn pl σ) = σ) →
   store (RazorWebhook.execute this σ) = σ).
Proof.
  assert (Hcases :
    (invoked (RazorWebhook.execute this σ) = [] ∧
     store (RazorWebhook.execute this σ) = σ) ∨
    (∃ fn,
       invoked (RazorWebhook.execute this σ) = [(fn, RazorWebhook._payload this)] ∧
       completion (RazorWebhook.execute this σ)
         = fst (call fn (RazorWebhook._payload this) σ) ∧
       store (RazorWebhook.execute this σ)
         = snd (call fn (RazorWebhook._payload this) σ))).
  { destruct (get σ (RazorWebhook._payload this) "event") as [v|err] eqn:Hget.
    2:{ left. unfold RazorWebhook.execute. rewrite Hget. split; reflexivity. }
    destruct (event_known_or_not v) as [(e & He & ->)|Hno].
    - destruct (WebHookEvent_setter e He) as [s <-].
      destruct (tables σ !! handler (RazorWebhook._handler this)) as [h|] eqn:Ht.
      + right. destruct (execute_setter_event this σ h s Hget Ht) as (fn & _ & ->).
        exists fn. repeat split.
      + left. rewrite (execute_no_table this σ s Hget Ht). split; reflexivity.
    - left. rewrite (execute_unsupported this σ v Hget Hno). split; reflexivity. }
  split; [exact Hcases|]. split.
  - intros v Hget Hv. rewrite (execute_unsupported this σ v Hget Hv). split; reflexivity.
  - intros Hquiet. destruct Hcases as [[_ Hst]|(fn & Hinv & _ & Hst)]; [exact Hst|].
    rewrite Hst. apply Hquiet. rewrite Hinv. left. reflexivity.
Qed.

End Outcomes.

(** ** The claims at the examples *)

(** C4 at the documentation's scenario: "subscription.halted" with nothing
    registered. *)
Lemma default_registry_dispatch_witness :
  RazorWebhook.constructor (JRef 1) (Scenario.world (JString "subscription.halted"))
    = (Normal Scenario.webhook, Scenario.built (JString "subscription.halted")) ∧
  In "subscription.halted" WebHookEvent ∧
  get (Scenario.world (JString "subscription.halted")) (JRef 1) "event"
    = Normal (JString "subscription.halted") ∧
  RazorWebhook.execute (H := Scenario.host) Scenario.webhook
      (Scenario.built (JString "subscription.halted")) =
    {| completion := Normal (Fulfilled (JBool true));
       store := Scenario.built (JString "subscription.halted");
       invoked := [(_mockAction, JRef 1)] |}.
Proof.
  assert (Hnew : RazorWebhook.constructor (JRef 1) (Scenario.world (JString "subscription.halted"))
                 = (Normal Scenario.webhook, Scenario.built (JString "subscription.halted")))
    by (vm_compute; reflexivity).
  assert (Hin : In "subscription.halted" WebHookEvent) by (cbn; tauto).
  assert (Hget : get (Scenario.world (JString "subscription.halted")) (JRef 1) "event"
                 = Normal (JString "subscription.halted")) by (vm_compute; reflexivity).
  split; [exact Hnew|]. split; [exact Hin|]. split; [exact Hget|].
  exact (proj2 (proj2 (proj2 (proj2
    (default_registry_dispatch (H := Scenario.host) (JRef 1)
       (Scenario.world (JString "subscription.halted"))
       (Scenario.built (JString "subscription.halted"))
       Scenario.webhook "subscription.halted" Hnew Hin Hget))))).
Defined.

(** C5 at the documentation's scenario: "refund.created" dispatched with
    two callbacks registered one after the other. *)
Lemma last_registration_wins_witness :
  tables (Scenario.built (JString "refund.created")) !! 1%positive = Some initial ∧
  get (Scenario.built (JString "refund.created")) (JRef 1) "event"
    = Normal (JString (event_of refundCreated)) ∧
  ∃ σ1 σ2,
    set (RazorWebhook.handler Scenario.webhook) refundCreated (HostFn 2)
        (Scenario.built (JString "refund.created")) = (Normal tt, σ1) ∧
    set (RazorWebhook.handler Scenario.webhook) refundCreated (HostFn 1) σ1 = (Normal tt, σ2) ∧
    RazorWebhook.execute (H := Scenario.host) Scenario.webhook σ2
      = one_call (H := Scenario.host) (HostFn 1) (JRef 1) σ2 ∧
    (HostFn 2 ≠ HostFn 1 →
     ¬ In (HostFn 2)
          (map fst (invoked (RazorWebhook.execute (H := Scenario.host) Scenario.webhook σ2)))) ∧
    RazorWebhook.execute (H := Scenario.host) Scenario.webhook σ1
      = one_call (H := Scenario.host) (HostFn 2) (JRef 1) σ1 ∧
    ∀ σ1',
      σ1' = store (RazorWebhook.execute (H := Scenario.host) Scenario.webhook σ1) →
      is_Some (tables σ1' !! 1%positive) →
      get σ1' (JRef 1) "event" = Normal (JString (event_of refundCreated)) →
      ∃ σ3,
        set (RazorWebhook.handler Scenario.webhook) refundCreated (HostFn 1) σ1'
          = (Normal tt, σ3) ∧
        RazorWebhook.execute (H := Scenario.host) Scenario.webhook σ3
          = one_call (H := Scenario.host) (HostFn 1) (JRef 1) σ3.
Proof.
  split; [vm_compute; reflexivity|]. split; [vm_compute; reflexivity|].
  apply (last_registration_wins (H := Scenario.host) Scenario.webhook
           (Scenario.built (JString "refund.created")) initial refundCreated
           (HostFn 2) (HostFn 1)).
  - vm_compute; reflexivity.
  - vm_compute; reflexivity.
Defined.

(** C7 at one setter of the example registry. *)
Lemma setter_frame_witness :
  tables (Scenario.built (JString "invoice.paid")) !! 1%positive = Some initial ∧
  ∃ σ' h',
    set (RazorWebhook.handler Scenario.webhook) invoicePaid (HostFn 0)
        (Scenario.built (JString "invoice.paid")) = (Normal tt, σ') ∧
    tables σ' !! 1%positive = Some h' ∧
    entry h' (key_of invoicePaid) = Some (HostFn 0) ∧
    (∀ k, k ≠ key_of invoicePaid → entry h' k = entry initial k) ∧
    (∀ l, l ≠ 1%positive → tables σ' !! l = tables (Scenario.built (JString "invoice.paid")) !! l) ∧
    objects σ' = objects (Scenario.built (JString "invoice.paid")).
Proof.
  split; [vm_compute; reflexivity|].
  apply (setter_frame (RazorWebhook.handler Scenario.webhook) invoicePaid (HostFn 0)
           (Scenario.built (JString "invoice.paid")) initial).
  vm_compute; reflexivity.
Defined.

(** C8 at a payload whose event is [undefined]. *)
Lemma unsupported_rejection_is_fixed_string_witness :
  get (Scenario.built JUndefined) (JRef 1) "event" = Normal JUndefined ∧
  (∀ e, In e WebHookEvent → JUndefined ≠ JString e) ∧
  completion (RazorWebhook.execute (H := Scenario.host) Scenario.webhook (Scenario.built JUndefined))
    = Normal (Promise_reject
                (JString "Payload event is currently isn't supported by RazorWebhook class.")).
Proof.
  assert (Hget : get (Scenario.built JUndefined) (JRef 1) "event" = Normal JUndefined)
    by (vm_compute; reflexivity).
  assert (Hv : ∀ e, In e WebHookEvent → JUndefined ≠ JString e)
    by (intros e _; discriminate).
  split; [exact Hget|]. split; [exact Hv|].
  exact (proj1 (unsupported_rejection_is_fixed_string (H := Scenario.host)
                  Scenario.webhook (Scenario.built JUndefined) JUndefined Hget Hv)).
Defined.

(** C9 at "payment.dispute.won" with a callback registered through
    [disputeWon]. *)
Lemma dispute_events_use_dispute_category_witness :
  In "won" ["created"; "won"; "lost"; "closed"] ∧
  get (Scenario.registered disputeWon (HostFn 1) (JString "payment.dispute.won"))
      (JRef 1) "event" = Normal (JString ("payment.dispute." ++ "won")) ∧
  tables (Scenario.registered disputeWon (HostFn 1) (JString "payment.dispute.won"))
    !! 1%positive = Some (assign disputeWon (HostFn 1) initial) ∧
  ∃ s fn,
    In s [disputeCreated; disputeWon; disputeLost; disputeClosed] ∧
    event_of s = "payment.dispute." ++ "won" ∧
    key_of s = ("dispute", "won") ∧
    entry (assign disputeWon (HostFn 1) initial) ("dispute", "won") = Some fn ∧
    RazorWebhook.execute (H := Scenario.host) Scenario.webhook
        (Scenario.registered disputeWon (HostFn 1) (JString "payment.dispute.won"))
      = one_call (H := Scenario.host) fn (JRef 1)
          (Scenario.registered disputeWon (HostFn 1) (JString "payment.dispute.won")) ∧
    ∀ (f : Payment.t → Payment.t) σ',
      objects σ'
        = objects (Scenario.registered disputeWon (HostFn 1) (JString "payment.dispute.won")) →
      tables σ' !! 1%positive
        = Some (with_payment f (assign disputeWon (HostFn 1) initial)) →
      invoked (RazorWebhook.execute (H := Scenario.host) Scenario.webhook σ') = [(fn, JRef 1)].
Proof.
  split; [cbn; tauto|]. split; [vm_compute; reflexivity|]. split; [vm_compute; reflexivity|].
  apply (dispute_events_use_dispute_category (H := Scenario.host) Scenario.webhook
           (Scenario.registered disputeWon (HostFn 1) (JString "payment.dispute.won"))
           (assign disputeWon (HostFn 1) initial) "won").
  - cbn; tauto.
  - vm_compute; reflexivity.
  - vm_compute; reflexivity.
Defined.

(** C10 at a dispatch to the default callback: the heap is left as it was. *)
Lemma execute_frame_witness :
  (∀ fn pl,
     In (fn, pl) (invoked (RazorWebhook.execute (H := Scenario.host) Scenario.webhook
                             (Scenario.built (JString "order.paid")))) →
     snd (call (H := Scenario.host) fn pl (Scenario.built (JString "order.paid")))
       = Scenario.built (JString "order.paid")) ∧
  store (RazorWebhook.execute (H := Scenario.host) Scenario.webhook
           (Scenario.built (JString "order.paid")))
    = Scenario.built (JString "order.paid").
Proof.
  assert (Hquiet : ∀ fn pl,
     In (fn, pl) (invoked (RazorWebhook.execute (H := Scenario.host) Scenario.webhook
                             (Scenario.built (JString "order.paid")))) →
     snd (call (H := Scenario.host) fn pl (Scenario.built (JString "order.paid")))
       = Scenario.built (JString "order.paid")).
  { intros fn pl Hin. vm_compute in Hin. destruct Hin as [[= <- <-]|[]]. reflexivity. }
  split; [exact Hquiet|].
  exact (proj2 (proj2 (execute_frame (H := Scenario.host) Scenario.webhook
                         (Scenario.built (JString "order.paid")))) Hquiet).
Defined.

(** * Further properties of the registry and of the dispatch *)

(** ** The setters as operations on a table *)

Lemma assign_comm s s' f g h :
  s ≠ s' → assign s f (assign s' g h) = assign s' g (assign s f h).
Proof. destruct s, s'; intros Hne; first [reflexivity | congruence]. Qed.

Lemma assign_assign s f g h : assign s g (assign s f h) = assign s g h.
Proof. destruct s; reflexivity. Qed.


Lemma assign_all_ext fns fns' h :
  (∀ s, fns s = fns' s) → assign_all fns h = assign_all fns' h.
Proof.
  intros Hext. unfold assign_all. generalize setters. intros l. revert h.
  induction l as [|s l IH]; intros h; [reflexivity|].
  simpl. rewrite (Hext s). apply IH.
Qed.

Lemma assign_all_registered h h0 : assign_all (registered_for h) h0 = h.
Proof. destruct h as [[] [] [] [] [] [] [] []]. reflexivity. Qed.

Lemma with_tables_insert_insert l h h' σ :
  with_tables (insert l h') (with_tables (insert l h) σ) = with_tables (insert l h') σ.
Proof. unfold with_tables. simpl. rewrite insert_insert_eq. reflexivity. Qed.

(** Two setters in a row on a table that is in place. *)
Lemma set_set this s f s' g σ h :
  tables σ !! handler this = Some h →
  ∃ σ1,
    set this s f σ = (Normal tt, σ1) ∧
    set this s' g σ1
      = (Normal tt, with_tables (insert (handler this) (assign s' g (assign s f h))) σ).
Proof.
  intros Ht. eexists. split; [exact (set_allocated _ _ _ _ _ Ht)|].
  rewrite (set_allocated this s' g _ (assign s f h)) by apply tables_insert_eq.
  unfold handler. rewrite with_tables_insert_insert. reflexivity.
Qed.

(** X1.  Registrations for two different events can be made in either
    order: on a registry whose table is in place, the setters [s] and [s']
    applied one after the other succeed and leave the same heap whichever
    comes first. *)
Theorem setters_commute (this : RazorWebhookHandler.t) (s s' : Setter)
    (f g : WebHookFunction) (σ : Store) (h : IActionHandler) :
  tables σ !! handler this = Some h →
  s ≠ s' →
  ∃ σ1 σ2 σ12,
    set this s f σ = (Normal tt, σ1) ∧ set this s' g σ1 = (Normal tt, σ12) ∧
    set this s' g σ = (Normal tt, σ2) ∧ set this s f σ2 = (Normal tt, σ12).
Proof.
  intros Ht Hne.
  destruct (set_set this s f s' g σ h Ht) as (σ1 & Hs1 & Hs12).
  destruct (set_set this s' g s f σ h Ht) as (σ2 & Hs2 & Hs21).
  exists σ1, σ2. eexists. split; [exact Hs1|]. split; [exact Hs12|]. split; [exact Hs2|].
  rewrite Hs21, (assign_comm s s' f g h Hne). reflexivity.
Qed.

(** X2.  A registration overwrites without trace: on a registry whose
    table is in place, registering [f] and then [g] through the same setter
    leaves exactly the heap that registering [g] alone leaves; in
    particular registering the same callback twice is registering it
    once. *)
Theorem setter_overwrites (this : RazorWebhookHandler.t) (s : Setter)
    (f g : WebHookFunction) (σ : Store) (h : IActionHandler) :
  tables σ !! handler this = Some h →
  ∃ σ1 σ2,
    set this s f σ = (Normal tt, σ1) ∧
    set this s g σ1 = (Normal tt, σ2) ∧
    set this s g σ = (Normal tt, σ2) ∧
    (f = g → σ2 = σ1).
Proof.
  intros Ht.
  destruct (set_set this s f s g σ h Ht) as (σ1 & Hs1 & Hs2).
  exists σ1. eexists. split; [exact Hs1|]. split; [exact Hs2|].
  rewrite assign_assign. split; [exact (set_allocated _ _ _ _ _ Ht)|].
  intros ->. rewrite (set_allocated _ _ _ _ _ Ht) in Hs1. injection Hs1 as <-. reflexivity.
Qed.


(** X4.  The setters reach the whole table: from any table, using every
    setter once with the callback another table [h] holds under its key
    gives [h]; with [_mockAction] for every setter it gives back the
    table of a new registry, whatever was registered before. *)
Theorem setters_reach_every_table (h h0 : IActionHandler) :
  assign_all (registered_for h) h0 = h ∧
  assign_all (λ _, _mockAction) h0 = initial.
Proof.
  split; [apply assign_all_registered|].
  rewrite <- (assign_all_registered initial h0).
  apply assign_all_ext. intros s. destruct s; reflexivity.
Qed.

(** X5.  [new RazorWebhook(payload)] that throws leaves the heap as it
    was: no table is made.  When it succeeds, the dispatcher holds the
    argument itself as its payload, its table is at an address that held
    no table before and is the initial table, and every other table and
    every object of the heap is as before. *)
Theorem constructor_allocates_one_table (payload : JsValue) (σ σ' : Store)
    (r : Completion RazorWebhook.t) :
  RazorWebhook.constructor payload σ = (r, σ') →
  objects σ' = objects σ ∧
  (∀ e, r = Throw e → σ' = σ) ∧
  (∀ this, r = Normal this →
     RazorWebhook.payload this = payload ∧
     tables σ !! handler (RazorWebhook.handler this) = None ∧
     tables σ' !! handler (RazorWebhook.handler this) = Some initial ∧
     ∀ l, l ≠ handler (RazorWebhook.handler this) → tables σ' !! l = tables σ !! l).
Proof.
  intros Hnew. destruct (truthy payload) eqn:Hp.
  - rewrite (RazorWebhook_constructor_truthy _ _ Hp) in Hnew. injection Hnew as <- <-.
    split; [reflexivity|]. split; [discriminate|].
    intros this [= <-]. split; [reflexivity|].
    split; [apply constructor_fresh|]. split; [apply tables_insert_eq|].
    intros l Hl. apply tables_insert_ne. exact (λ E, Hl (eq_sym E)).
  - rewrite (RazorWebhook_constructor_falsy _ _ Hp) in Hnew. injection Hnew as <- <-.
    split; [reflexivity|]. split; [reflexivity|]. discriminate.
Qed.

(** ** The constructor and the dispatch together *)

Lemma RazorWebhook_constructor_Normal payload σ this σ' :
  RazorWebhook.constructor payload σ = (Normal this, σ') →
  truthy payload = true ∧
  this = {| RazorWebhook._payload := payload;
            RazorWebhook._handler := fst (constructor σ) |} ∧
  σ' = snd (constructor σ).
Proof.
  intros Hnew. destruct (truthy payload) eqn:Hp.
  - rewrite (RazorWebhook_constructor_truthy _ _ Hp) in Hnew. injection Hnew as <- <-.
    repeat split.
  - rewrite (RazorWebhook_constructor_falsy _ _ Hp) in Hnew. discriminate Hnew.
Qed.


Lemma entry_initial_key_of s fn : entry initial (key_of s) = Some fn → fn = _mockAction.
Proof. destruct s; intros [= <-]; reflexivity. Qed.

Lemma keys_setter k : In k keys → ∃ s, key_of s = k.
Proof.
  intros Hk.
  assert (Hk' : In k (map key_of setters)) by (cbn in *; tauto).
  apply in_map_iff in Hk' as (s & Hs & _). eauto.
Qed.

Lemma event_of_event_of_key s : event_of s = event_of_key (key_of s).
Proof. destruct s; reflexivity. Qed.

Section Further.
Context `{HostFunctions}.

(** X6.  Every dispatcher has a registry of its own: of two dispatchers
    built one after the other, the tables are at different addresses, and
    a callback registered through the first is not called by the second,
    which still dispatches an event of the enumeration to [_mockAction]. *)
Theorem dispatchers_do_not_share_callbacks (payload1 payload2 : JsValue)
    (σ0 σ1 σ2 : Store) (this1 this2 : RazorWebhook.t)
    (s : Setter) (fn : WebHookFunction) (e : string) :
  RazorWebhook.constructor payload1 σ0 = (Normal this1, σ1) →
  RazorWebhook.constructor payload2 σ1 = (Normal this2, σ2) →
  In e WebHookEvent →
  get σ2 payload2 "event" = Normal (JString e) →
  handler (RazorWebhook.handler this1) ≠ handler (RazorWebhook.handler this2) ∧
  ∃ σ3,
    set (RazorWebhook.handler this1) s fn σ2 = (Normal tt, σ3) ∧
    tables σ3 !! handler (RazorWebhook.handler this1) = Some (assign s fn initial) ∧
    RazorWebhook.execute this2 σ3 = one_call _mockAction payload2 σ3.
Proof.
  intros Hnew1 Hnew2 He Hget.
  apply RazorWebhook_constructor_Normal in Hnew1 as (_ & -> & ->).
  apply RazorWebhook_constructor_Normal in Hnew2 as (_ & -> & ->).
  set (σ1 := snd (constructor σ0)) in *.
  set (l1 := handler (fst (constructor σ0))).
  set (l2 := handler (fst (constructor σ1))).
  assert (Ht1 : tables σ1 !! l1 = Some initial) by apply tables_insert_eq.
  assert (Hne : l1 ≠ l2).
  { intros E. assert (Hfresh : tables σ1 !! l2 = None) by apply constructor_fresh.
    rewrite <- E in Hfresh. congruence. }
  split; [exact Hne|].
  assert (Ht21 : tables (snd (constructor σ1)) !! l1 = Some initial).
  { rewrite <- Ht1. apply tables_insert_ne. exact (λ E, Hne (eq_sym E)). }
  exists (with_tables (insert l1 (assign s fn initial)) (snd (constructor σ1))).
  split; [exact (set_allocated _ _ _ _ _ Ht21)|].
  split; [apply tables_insert_eq|].
  assert (Ht32 : tables (with_tables (insert l1 (assign s fn initial)) (snd (constructor σ1)))
                   !! l2 = Some initial).
  { rewrite (tables_insert_ne l1 l2 _ _ Hne). apply tables_insert_eq. }
  destruct (WebHookEvent_setter e He) as [s' <-].
  rewrite <- (get_with_tables (insert l1 (assign s fn initial))) in Hget.
  destruct (execute_setter_event
              {| RazorWebhook._payload := payload2;
                 RazorWebhook._handler := fst (constructor σ1) |}
              _ initial s' Hget Ht32) as (fn' & Hfn' & Hrun).
  apply entry_initial_key_of in Hfn'. subst fn'. exact Hrun.
Qed.


(** X8.  Which callback is called depends on the payload's [event] and on
    the table alone: two runs of dispatchers on one registry whose payloads
    read the same [event], on heaps that hold the same table, call the
    same callbacks, whatever else the payloads hold. *)
Theorem dispatch_reads_event_only (this this' : RazorWebhook.t) (σ σ' : Store) :
  RazorWebhook.handler this = RazorWebhook.handler this' →
  tables σ !! handler (RazorWebhook.handler this)
    = tables σ' !! handler (RazorWebhook.handler this) →
  get σ (RazorWebhook.payload this) "event" = get σ' (RazorWebhook.payload this') "event" →
  map fst (invoked (RazorWebhook.execute this σ))
    = map fst (invoked (RazorWebhook.execute this' σ')).
Proof.
  intros Hh Ht Hget. unfold RazorWebhook.payload, RazorWebhook.handler in *.
  destruct (get σ (RazorWebhook._payload this) "event") as [v|err] eqn:Hg.
  2:{ unfold RazorWebhook.execute. rewrite Hg, <- Hget. reflexivity. }
  symmetry in Hget.
  destruct (event_known_or_not v) as [(ev & Hev & ->)|Hno].
  - destruct (WebHookEvent_setter ev Hev) as [s <-].
    destruct (tables σ !! handler (RazorWebhook._handler this)) as [h|] eqn:Hth.
    + symmetry in Ht. rewrite Hh in Ht.
      destruct (execute_setter_event this σ h s Hg Hth) as (fn & Hfn & ->).
      destruct (execute_setter_event this' σ' h s Hget Ht) as (fn' & Hfn' & ->).
      simpl. congruence.
    + symmetry in Ht. rewrite Hh in Ht.
      rewrite (execute_no_table this σ s Hg Hth), (execute_no_table this' σ' s Hget Ht).
      reflexivity.
  - rewrite (execute_unsupported this σ v Hg Hno), (execute_unsupported this' σ' v Hget Hno).
    reflexivity.
Qed.

(** X9.  A registration changes the dispatch of its own event only: on a
    registry whose table is in place, after a setter has been used, a
    payload whose [event] is not the event of that setter makes [execute]
    call what it would have called before. *)
Theorem registration_leaves_other_events (this : RazorWebhook.t) (σ : Store)
    (h : IActionHandler) (s : Setter) (fn : WebHookFunction) :
  tables σ !! handler (RazorWebhook.handler this) = Some h →
  get σ (RazorWebhook.payload this) "event" ≠ Normal (JString (event_of s)) →
  ∃ σ1,
    set (RazorWebhook.handler this) s fn σ = (Normal tt, σ1) ∧
    invoked (RazorWebhook.execute this σ1) = invoked (RazorWebhook.execute this σ).
Proof.
  intros Ht Hother. unfold RazorWebhook.payload, RazorWebhook.handler in *.
  exists (with_tables (insert (handler (RazorWebhook._handler this)) (assign s fn h)) σ).
  split; [exact (set_allocated _ _ _ _ _ Ht)|].
  set (σ1 := with_tables _ σ).
  assert (Hg1 : get σ1 (RazorWebhook._payload this) "event"
                = get σ (RazorWebhook._payload this) "event") by apply get_with_tables.
  assert (Ht1 : tables σ1 !! handler (RazorWebhook._handler this) = Some (assign s fn h))
    by apply tables_insert_eq.
  destruct (get σ (RazorWebhook._payload this) "event") as [v|err] eqn:Hg.
  2:{ unfold RazorWebhook.execute. rewrite Hg1, Hg. reflexivity. }
  destruct (event_known_or_not v) as [(ev & Hev & ->)|Hno].
  - destruct (WebHookEvent_setter ev Hev) as [s' <-].
    destruct (execute_setter_event this σ h s' Hg Ht) as (f & Hf & ->).
    destruct (execute_setter_event this σ1 _ s' Hg1 Ht1) as (f1 & Hf1 & ->).
    rewrite entry_assign_ne in Hf1.
    + simpl. congruence.
    + intros E. apply key_of_inj in E. subst s'. apply Hother. reflexivity.
  - rewrite (execute_unsupported this σ1 v Hg1 Hno), (execute_unsupported this σ v Hg Hno).
    reflexivity.
Qed.


(** X11.  The key of the table names the event it serves: for every key,
    the payload whose [event] is the category and the name joined by a
    dot (under "payment." for the dispute category) is dispatched to the
    callback the table holds under that key. *)
Theorem key_names_its_event (this : RazorWebhook.t) (σ : Store)
    (h : IActionHandler) (k : Key) :
  In k keys →
  get σ (RazorWebhook.payload this) "event" = Normal (JString (event_of_key k)) →
  tables σ !! handler (RazorWebhook.handler this) = Some h →
  In (event_of_key k) WebHookEvent ∧
  ∃ fn,
    entry h k = Some fn ∧
    RazorWebhook.execute this σ = one_call fn (RazorWebhook.payload this) σ.
Proof.
  intros Hk Hget Ht. destruct (keys_setter k Hk) as [s <-].
  rewrite <- event_of_event_of_key in *.
  split; [destruct s; cbn; tauto|].
  exact (execute_setter_event this σ h s Hget Ht).
Qed.

End Further.

(** ** The further properties at the examples *)

Lemma setters_commute_witness :
  tables (Scenario.built (JString "order.paid")) !! 1%positive = Some initial ∧
  orderPaid ≠ invoicePaid ∧
  ∃ σ1 σ2 σ12,
    set (RazorWebhook.handler Scenario.webhook) orderPaid (HostFn 0)
        (Scenario.built (JString "order.paid")) = (Normal tt, σ1) ∧
    set (RazorWebhook.handler Scenario.webhook) invoicePaid (HostFn 1) σ1 = (Normal tt, σ12) ∧
    set (RazorWebhook.handler Scenario.webhook) invoicePaid (HostFn 1)
        (Scenario.built (JString "order.paid")) = (Normal tt, σ2) ∧
    set (RazorWebhook.handler Scenario.webhook) orderPaid (HostFn 0) σ2 = (Normal tt, σ12).
Proof.
  split; [vm_compute; reflexivity|]. split; [discriminate|].
  apply (setters_commute (RazorWebhook.handler Scenario.webhook) orderPaid invoicePaid
           (HostFn 0) (HostFn 1) (Scenario.built (JString "order.paid")) initial).
  - vm_compute; reflexivity.
  - discriminate.
Defined.

Lemma setter_overwrites_witness :
  tables (Scenario.built (JString "order.paid")) !! 1%positive = Some initial ∧
  ∃ σ1 σ2,
    set (RazorWebhook.handler Scenario.webhook) orderPaid (HostFn 0)
        (Scenario.built (JString "order.paid")) = (Normal tt, σ1) ∧
    set (RazorWebhook.handler Scenario.webhook) orderPaid (HostFn 1) σ1 = (Normal tt, σ2) ∧
    set (RazorWebhook.handler Scenario.webhook) orderPaid (HostFn 1)
        (Scenario.built (JString "order.paid")) = (Normal tt, σ2) ∧
    (HostFn 0 = HostFn 1 → σ2 = σ1).
Proof.
  split; [vm_compute; reflexivity|].
  apply (setter_overwrites (RazorWebhook.handler Scenario.webhook) orderPaid
           (HostFn 0) (HostFn 1) (Scenario.built (JString "order.paid")) initial).
  vm_compute; reflexivity.
Defined.


Lemma constructor_allocates_one_table_witness :
  RazorWebhook.constructor (JRef 1) (Scenario.world (JString "order.paid"))
    = (Normal Scenario.webhook, Scenario.built (JString "order.paid")) ∧
  objects (Scenario.built (JString "order.paid"))
    = objects (Scenario.world (JString "order.paid")) ∧
  (∀ e, Normal Scenario.webhook = Throw e →
        Scenario.built (JString "order.paid") = Scenario.world (JString "order.paid")) ∧
  (∀ this, Normal Scenario.webhook = Normal this →
     RazorWebhook.payload this = JRef 1 ∧
     tables (Scenario.world (JString "order.paid"))
       !! handler (RazorWebhook.handler this) = None ∧
     tables (Scenario.built (JString "order.paid"))
       !! handler (RazorWebhook.handler this) = Some initial ∧
     ∀ l, l ≠ handler (RazorWebhook.handler this) →
          tables (Scenario.built (JString "order.paid")) !! l
          = tables (Scenario.world (JString "order.paid")) !! l).
Proof.
  split; [vm_compute; reflexivity|].
  apply (constructor_allocates_one_table (JRef 1) (Scenario.world (JString "order.paid"))
           (Scenario.built (JString "order.paid")) (Normal Scenario.webhook)).
  vm_compute; reflexivity.
Defined.

Lemma dispatchers_do_not_share_callbacks_witness :
  RazorWebhook.constructor (JRef 1) (Scenario.world (JString "order.paid"))
    = (Normal Scenario.webhook, Scenario.built (JString "order.paid")) ∧
  RazorWebhook.constructor (JRef 1) (Scenario.built (JString "order.paid"))
    = (Normal second_webhook,
       with_tables (insert 2%positive initial) (Scenario.built (JString "order.paid"))) ∧
  In "order.paid" WebHookEvent ∧
  get (with_tables (insert 2%positive initial) (Scenario.built (JString "order.paid")))
      (JRef 1) "event" = Normal (JString "order.paid") ∧
  handler (RazorWebhook.handler Scenario.webhook)
    ≠ handler (RazorWebhook.handler second_webhook) ∧
  ∃ σ3,
    set (RazorWebhook.handler Scenario.webhook) orderPaid (HostFn 1)
        (with_tables (insert 2%positive initial) (Scenario.built (JString "order.paid")))
      = (Normal tt, σ3) ∧
    tables σ3 !! handler (RazorWebhook.handler Scenario.webhook)
      = Some (assign orderPaid (HostFn 1) initial) ∧
    RazorWebhook.execute (H := Scenario.host) second_webhook σ3
      = one_call (H := Scenario.host) _mockAction (JRef 1) σ3.
Proof.
  split; [vm_compute; reflexivity|]. split; [vm_compute; reflexivity|].
  split; [cbn; tauto|]. split; [vm_compute; reflexivity|].
  apply (dispatchers_do_not_share_callbacks (H := Scenario.host) (JRef 1) (JRef 1)
           (Scenario.world (JString "order.paid")) (Scenario.built (JString "order.paid"))
           (with_tables (insert 2%positive initial) (Scenario.built (JString "order.paid")))
           Scenario.webhook second_webhook orderPaid (HostFn 1) "order.paid").
  - vm_compute; reflexivity.
  - vm_compute; reflexivity.
  - cbn; tauto.
  - vm_compute; reflexivity.
Defined.


Lemma dispatch_reads_event_only_witness :
  RazorWebhook.handler Scenario.webhook = RazorWebhook.handler Scenario.webhook ∧
  tables (Scenario.registered paymentCaptured (HostFn 0) (JString "payment.captured"))
    !! 1%positive
  = tables (with_tables (insert 1%positive (assign paymentCaptured (HostFn 0) initial))
              (bare (JString "payment.captured"))) !! 1%positive ∧
  get (Scenario.registered paymentCaptured (HostFn 0) (JString "payment.captured"))
      (JRef 1) "event"
  = get (with_tables (insert 1%positive (assign paymentCaptured (HostFn 0) initial))
           (bare (JString "payment.captured"))) (JRef 1) "event" ∧
  map fst (invoked (RazorWebhook.execute (H := Scenario.host) Scenario.webhook
                      (Scenario.registered paymentCaptured (HostFn 0)
                         (JString "payment.captured"))))
  = map fst (invoked (RazorWebhook.execute (H := Scenario.host) Scenario.webhook
                        (with_tables
                           (insert 1%positive (assign paymentCaptured (HostFn 0) initial))
                           (bare (JString "payment.captured"))))).
Proof.
  split; [reflexivity|]. split; [vm_compute; reflexivity|]. split; [vm_compute; reflexivity|].
  apply (dispatch_reads_event_only (H := Scenario.host) Scenario.webhook Scenario.webhook
           (Scenario.registered paymentCaptured (HostFn 0) (JString "payment.captured"))
           (with_tables (insert 1%positive (assign paymentCaptured (HostFn 0) initial))
              (bare (JString "payment.captured")))).
  - reflexivity.
  - vm_compute; reflexivity.
  - vm_compute; reflexivity.
Defined.

Lemma registration_leaves_other_events_witness :
  tables (Scenario.built (JString "order.paid")) !! 1%positive = Some initial ∧
  get (Scenario.built (JString "order.paid")) (JRef 1) "event"
    ≠ Normal (JString (event_of invoicePaid)) ∧
  ∃ σ1,
    set (RazorWebhook.handler Scenario.webhook) invoicePaid (HostFn 1)
        (Scenario.built (JString "order.paid")) = (Normal tt, σ1) ∧
    invoked (RazorWebhook.execute (H := Scenario.host) Scenario.webhook σ1)
      = invoked (RazorWebhook.execute (H := Scenario.host) Scenario.webhook
                   (Scenario.built (JString "order.paid"))).
Proof.
  assert (Hother : get (Scenario.built (JString "order.paid")) (JRef 1) "event"
                   ≠ Normal (JString (event_of invoicePaid))).
  { intros E. vm_compute in E. discriminate E. }
  split; [vm_compute; reflexivity|]. split; [exact Hother|].
  apply (registration_leaves_other_events (H := Scenario.host) Scenario.webhook
           (Scenario.built (JString "order.paid")) initial invoicePaid (HostFn 1)).
  - vm_compute; reflexivity.
  - exact Hother.
Defined.


Lemma key_names_its_event_witness :
  In ("dispute", "lost") keys ∧
  get (Scenario.built (JString "payment.dispute.lost")) (JRef 1) "event"
    = Normal (JString (event_of_key ("dispute", "lost"))) ∧
  tables (Scenario.built (JString "payment.dispute.lost")) !! 1%positive = Some initial ∧
  In (event_of_key ("dispute", "lost")) WebHookEvent ∧
  ∃ fn,
    entry initial ("dispute", "lost") = Some fn ∧
    RazorWebhook.execute (H := Scenario.host) Scenario.webhook
        (Scenario.built (JString "payment.dispute.lost"))
      = one_call (H := Scenario.host) fn (JRef 1)
          (Scenario.built (JString "payment.dispute.lost")).
Proof.
  split; [cbn; tauto|]. split; [vm_compute; reflexivity|]. split; [vm_compute; reflexivity|].
  apply (key_names_its_event (H := Scenario.host) Scenario.webhook
           (Scenario.built (JString "payment.dispute.lost")) initial ("dispute", "lost")).
  - cbn; tauto.
  - vm_compute; reflexivity.
  - vm_compute; reflexivity.
Defined.
